(** * Synapse thesaurus: the export and synonym request handlers

    A shallow embedding of [backend/export/index.py] and
    [backend/synonyms/index.py].  Both files are request/response glue
    around the Python standard library and a few outbound services, so
    the embedding keeps the code's own control flow (which value is read
    when, which call can raise, which [except] clause catches it) and
    takes the outside world as data:

    - a Python [str] is the list of its code points;
    - a value produced by [json.loads] is a [json] term (dicts keep
      their insertion order, as Python's do);
    - an exception is a value of [exn], and code that may raise returns
      a [result];
    - the clock, the optional rendering libraries and the two web
      services are fields of an environment record, one per handler;
    - [str.lower], the formatting of a non-string value inside an
      f-string, and [json.loads] applied to a text the code computes are
      section variables: they belong to the Python runtime. *)

From Stdlib Require Import List NArith ZArith Bool Lia.
From Stdlib Require Import Strings.String Strings.Ascii Strings.Byte.
From Stdlib Require Import Floats.
From Stdlib Require Import Sorting.Permutation.
Import ListNotations.

(** ** Python values *)

(** A [str]: its code points, in order. *)
Definition pystr := list N.

(** A literal of the source, written in ASCII. *)
Definition py (s : string) : pystr := map N_of_ascii (list_ascii_of_string s).

Definition bytes := list byte.

(** What [json.loads] can build: [None], [bool], [int], [float], [str],
    [list] and [dict] (string keys, insertion order). *)
#[warnings="-register-all"]
Inductive json : Type :=
| JNull
| JBool (b : bool)
| JInt (z : Z)
| JFloat (f : float)
| JStr (s : pystr)
| JArr (l : list json)
| JObj (d : list (pystr * json)).

Definition dict := list (pystr * json).

Inductive exn : Type :=
| AttributeError
| TypeError
| KeyError
| IndexError
| ImportError
| UnicodeEncodeError
| JSONDecodeError
| URLError
| TimeoutError
| OtherError (msg : pystr).

Inductive result (A : Type) : Type :=
| Ok (a : A)
| Raise (e : exn).
Arguments Ok {A} a.
Arguments Raise {A} e.

Definition bind {A B} (r : result A) (k : A -> result B) : result B :=
  match r with
  | Ok a => k a
  | Raise e => Raise e
  end.

Declare Scope py_scope.
Delimit Scope py_scope with py.
Notation "x <- r ;; k" := (bind r (fun x => k))
  (at level 61, r at next level, right associativity) : py_scope.
Open Scope py_scope.

(** [try: r except Exception: h] *)
Definition try_except {A} (r : result A) (h : exn -> A) : A :=
  match r with
  | Ok a => a
  | Raise e => h e
  end.

Fixpoint pystr_eqb (a b : pystr) : bool :=
  match a, b with
  | [], [] => true
  | x :: a', y :: b' => N.eqb x y && pystr_eqb a' b'
  | _, _ => false
  end.

(** [v == 'literal']: a value of another type is never equal to a [str]. *)
Definition eq_str (v : json) (s : pystr) : bool :=
  match v with
  | JStr t => pystr_eqb t s
  | _ => false
  end.

(** Python truth value, as [if v:] and [not v] test it. *)
Definition truthy (v : json) : bool :=
  match v with
  | JNull => false
  | JBool b => b
  | JInt z => negb (Z.eqb z 0)
  | JFloat f => negb (PrimFloat.eqb f 0%float)
  | JStr s => match s with [] => false | _ => true end
  | JArr l => match l with [] => false | _ => true end
  | JObj d => match d with [] => false | _ => true end
  end.

(** [d.get(k)] on a dict: [None] when the key is absent. *)
Fixpoint dict_lookup (d : dict) (k : pystr) : option json :=
  match d with
  | [] => None
  | (k', v) :: d' => if pystr_eqb k' k then Some v else dict_lookup d' k
  end.

(** [d.get(k, default)] *)
Definition dict_get (d : dict) (k : pystr) (default : json) : json :=
  match dict_lookup d k with
  | Some v => v
  | None => default
  end.

(** [k in d] *)
Definition dict_mem (d : dict) (k : pystr) : bool :=
  match dict_lookup d k with
  | Some _ => true
  | None => false
  end.

(** [d[k] = v]: an existing key keeps its place, a new one goes last. *)
Fixpoint dict_set (d : dict) (k : pystr) (v : json) : dict :=
  match d with
  | [] => [(k, v)]
  | (k', v') :: d' =>
      if pystr_eqb k' k then (k', v) :: d' else (k', v') :: dict_set d' k v
  end.

(** [x.get(k, default)] on any value: only a dict has [get]. *)
Definition get (x : json) (k : pystr) (default : json) : result json :=
  match x with
  | JObj d => Ok (dict_get d k default)
  | _ => Raise AttributeError
  end.

(** [x[k]] with a string key. *)
Definition subscript (x : json) (k : pystr) : result json :=
  match x with
  | JObj d =>
      match dict_lookup d k with
      | Some v => Ok v
      | None => Raise KeyError
      end
  | _ => Raise TypeError
  end.

(** [x[0]] *)
Definition subscript0 (x : json) : result json :=
  match x with
  | JArr l => match l with v :: _ => Ok v | [] => Raise IndexError end
  | JStr s => match s with c :: _ => Ok (JStr [c]) | [] => Raise IndexError end
  | JObj _ => Raise KeyError
  | _ => Raise TypeError
  end.

(** [for item in x]: the items a loop visits. *)
Definition iterate (x : json) : result (list json) :=
  match x with
  | JArr l => Ok l
  | JObj d => Ok (map (fun kv => JStr (fst kv)) d)
  | JStr s => Ok (map (fun c => JStr [c]) s)
  | _ => Raise TypeError
  end.

(** [len(x)] *)
Definition len (x : json) : result nat :=
  match x with
  | JStr s => Ok (List.length s)
  | JArr l => Ok (List.length l)
  | JObj d => Ok (List.length d)
  | _ => Raise TypeError
  end.

(** ** HTTP responses *)

(** The [body] of a response: the empty string, [json.dumps(v)], or
    [json.dumps({'error': str(e)})] of a caught exception. *)
Inductive resp_body : Type :=
| BodyEmpty
| BodyJson (v : json)
| BodyError (e : exn).

Record response : Type := mkResponse {
  statusCode : Z;
  headers : list (string * string);
  body : resp_body;
  isBase64Encoded : bool
}.

Definition json_headers : list (string * string) :=
  [("Content-Type", "application/json"); ("Access-Control-Allow-Origin", "*")]%string.

Definition json_response (code : Z) (b : resp_body) : response :=
  mkResponse code json_headers b false.

Definition error_response (code : Z) (msg : string) : response :=
  json_response code (BodyJson (JObj [(py "error", JStr (py msg))])).

(** A field of the JSON object a response carries in its body. *)
Definition field (r : response) (k : pystr) : option json :=
  match body r with
  | BodyJson (JObj d) => dict_lookup d k
  | _ => None
  end.

(** The request: [event.get('httpMethod', ...)] and what [json.loads]
    makes of [event['body']] ([None]: the key is absent, and the handler
    loads the default ['{}']). *)
Record event : Type := mkEvent {
  httpMethod : option json;
  ev_body : option (result json)
}.

Definition loads_body (ev : event) : result json :=
  match ev_body ev with
  | Some r => r
  | None => Ok (JObj [])
  end.

(** ** Byte codecs of the standard library *)

Definition byte_of_N (n : N) : byte :=
  match Byte.of_N n with
  | Some b => b
  | None => x00
  end.

(** [c.encode('utf-8')] of one code point; a surrogate (and anything
    past U+10FFFF) cannot be encoded. *)
Definition utf8_char (c : N) : option bytes :=
  if (c <? 128)%N then Some [byte_of_N c]
  else if (c <? 2048)%N then
    Some [byte_of_N (192 + c / 64); byte_of_N (128 + c mod 64)]
  else if (c <? 65536)%N then
    if ((55296 <=? c) && (c <=? 57343))%N then None
    else Some [byte_of_N (224 + c / 4096);
               byte_of_N (128 + (c / 64) mod 64);
               byte_of_N (128 + c mod 64)]
  else if (c <? 1114112)%N then
    Some [byte_of_N (240 + c / 262144);
          byte_of_N (128 + (c / 4096) mod 64);
          byte_of_N (128 + (c / 64) mod 64);
          byte_of_N (128 + c mod 64)]
  else None.

(** [s.encode('utf-8')] *)
Fixpoint encode_utf8 (s : pystr) : result bytes :=
  match s with
  | [] => Ok []
  | c :: s' =>
      match utf8_char c with
      | None => Raise UnicodeEncodeError
      | Some bs => rest <- encode_utf8 s' ;; Ok (bs ++ rest)
      end
  end.

(** The base64 alphabet of RFC 4648: [A-Z], [a-z], [0-9], [+], [/]. *)
Definition b64_char (i : N) : N :=
  if (i <? 26)%N then 65 + i
  else if (i <? 52)%N then 97 + (i - 26)
  else if (i <? 62)%N then 48 + (i - 52)
  else if (i =? 62)%N then 43
  else 47.

Definition b64_pad : N := 61.

(** [base64.b64encode(bs).decode('utf-8')]: three bytes become four
    characters, a shorter tail is padded with [=]. *)
Fixpoint b64encode (bs : bytes) : pystr :=
  match bs with
  | [] => []
  | [a] =>
      let a := Byte.to_N a in
      [b64_char (a / 4); b64_char ((a mod 4) * 16); b64_pad; b64_pad]
  | [a; b] =>
      let a := Byte.to_N a in
      let b := Byte.to_N b in
      [b64_char (a / 4); b64_char ((a mod 4) * 16 + b / 16);
       b64_char ((b mod 16) * 4); b64_pad]
  | a :: b :: c :: rest =>
      let a := Byte.to_N a in
      let b := Byte.to_N b in
      let c := Byte.to_N c in
      b64_char (a / 4) :: b64_char ((a mod 4) * 16 + b / 16)
        :: b64_char ((b mod 16) * 4 + c / 64) :: b64_char (c mod 64)
        :: b64encode rest
  end.

(** The decoder a client applies to [content]: the inverse alphabet, four
    characters at a time, padding allowed in the last group only. *)
Definition b64_value (c : N) : option N :=
  if ((65 <=? c) && (c <=? 90))%N then Some (c - 65)%N
  else if ((97 <=? c) && (c <=? 122))%N then Some (c - 97 + 26)%N
  else if ((48 <=? c) && (c <=? 57))%N then Some (c - 48 + 52)%N
  else if (c =? 43)%N then Some 62%N
  else if (c =? 47)%N then Some 63%N
  else None.

Fixpoint b64decode (s : pystr) : option bytes :=
  match s with
  | [] => Some []
  | c1 :: c2 :: c3 :: c4 :: rest =>
      match b64_value c1, b64_value c2 with
      | Some v1, Some v2 =>
          let a := byte_of_N (v1 * 4 + v2 / 16)%N in
          if (c3 =? b64_pad)%N then
            match rest with
            | [] => if (c4 =? b64_pad)%N then Some [a] else None
            | _ => None
            end
          else
            match b64_value c3 with
            | Some v3 =>
                let b := byte_of_N ((v2 mod 16) * 16 + v3 / 4)%N in
                if (c4 =? b64_pad)%N then
                  match rest with
                  | [] => Some [a; b]
                  | _ => None
                  end
                else
                  match b64_value c4, b64decode rest with
                  | Some v4, Some tl =>
                      Some (a :: b :: byte_of_N ((v3 mod 4) * 64 + v4)%N :: tl)
                  | _, _ => None
                  end
            | None => None
            end
      | _, _ => None
      end
  | _ => None
  end.

(** ** backend/export/index.py *)

Module Exporter.

(** What one invocation reads from outside: the clock, formatted by
    [strftime] at the two places that call [datetime.now()], and what
    the body of each [try] block does ([Raise ImportError] when
    [reportlab], respectively [docx], cannot be imported). *)
Record world : Type := mkWorld {
  generated_at : pystr;      (* strftime('%Y-%m-%d %H:%M:%S') *)
  filename_stamp : pystr;    (* strftime("%Y%m%d-%H%M%S") *)
  reportlab : json -> json -> result bytes;
  python_docx : json -> json -> result bytes
}.

Definition nl : pystr := [10%N].
Definition arrow : pystr := [8594%N].

Definition options_response : response :=
  mkResponse 200
    [("Access-Control-Allow-Origin", "*");
     ("Access-Control-Allow-Methods", "POST, OPTIONS");
     ("Access-Control-Allow-Headers", "Content-Type");
     ("Access-Control-Max-Age", "86400")]%string
    BodyEmpty false.

Definition pdf_type : pystr := py "application/pdf".
Definition docx_type : pystr :=
  py "application/vnd.openxmlformats-officedocument.wordprocessingml.document".

Section Runtime.

(** [str.lower] *)
Variable lower : pystr -> pystr.
(** [str(v)] of a value that is not a [str], as an f-string formats it *)
Variable str_of : json -> pystr.

(** [f"{v}"] *)
Definition format_value (v : json) : pystr :=
  match v with
  | JStr s => s
  | _ => str_of v
  end.

(** [x.lower()]: only a [str] has the method. *)
Definition lower_method (x : json) : result pystr :=
  match x with
  | JStr s => Ok (lower s)
  | _ => Raise AttributeError
  end.

(** One line of the replacement history:
    [f"  {rep.get('original', '')} → {rep.get('replacement', '')} ({rep.get('timestamp', '')})\n"] *)
Definition history_line (rep : json) : result pystr :=
  o <- get rep (py "original") (JStr []) ;;
  r <- get rep (py "replacement") (JStr []) ;;
  t <- get rep (py "timestamp") (JStr []) ;;
  Ok (py "  " ++ format_value o ++ py " " ++ arrow ++ py " " ++ format_value r
        ++ py " (" ++ format_value t ++ py ")" ++ nl).

(** [for rep in replacements: content += ...] *)
Fixpoint history_lines (reps : list json) : result pystr :=
  match reps with
  | [] => Ok []
  | rep :: reps' =>
      line <- history_line rep ;;
      rest <- history_lines reps' ;;
      Ok (line ++ rest)
  end.

Definition fallback_head (w : world) (text : json) : pystr :=
  py "SYNAPSE - EXPORTED DOCUMENT" ++ nl
    ++ py "Generated: " ++ generated_at w ++ nl
    ++ nl
    ++ py "MAIN TEXT:" ++ nl
    ++ format_value text ++ nl
    ++ nl.

Definition history_title : pystr := nl ++ py "REPLACEMENT HISTORY:" ++ nl.

Definition create_simple_pdf_fallback (w : world) (text replacements : json)
  : result bytes :=
  let content := fallback_head w text in
  content <-
    (if truthy replacements then
       reps <- iterate replacements ;;
       lines <- history_lines reps ;;
       Ok (content ++ history_title ++ lines)
     else Ok content) ;;
  encode_utf8 content.

(** [try: <reportlab> except ImportError: return fallback] *)
Definition create_pdf (w : world) (text replacements : json) : result bytes :=
  match reportlab w text replacements with
  | Raise ImportError => create_simple_pdf_fallback w text replacements
  | r => r
  end.

Definition create_docx (w : world) (text replacements : json) : result bytes :=
  match python_docx w text replacements with
  | Raise ImportError => create_simple_pdf_fallback w text replacements
  | r => r
  end.

Definition filename (w : world) (ext : string) : pystr :=
  py "synapse-export-" ++ filename_stamp w ++ py ext.

(** The 200 response that carries the file. *)
Definition file_response (name : pystr) (file_bytes : bytes) (content_type : pystr)
  : response :=
  json_response 200
    (BodyJson (JObj [(py "filename", JStr name);
                     (py "content", JStr (b64encode file_bytes));
                     (py "contentType", JStr content_type);
                     (py "size", JInt (Z.of_nat (List.length file_bytes)))])).

(** [event.get('httpMethod', 'POST')] *)
Definition method_of (ev : event) : json :=
  match httpMethod ev with
  | Some m => m
  | None => JStr (py "POST")
  end.

(** The body of the [try] block of [handler]. *)
Definition handler_post (w : world) (ev : event) : result response :=
  body_data <- loads_body ev ;;
  text <- get body_data (py "text") (JStr []) ;;
  replacements <- get body_data (py "replacements") (JArr []) ;;
  format <- get body_data (py "format") (JStr (py "pdf")) ;;
  export_format <- lower_method format ;;
  if negb (truthy text) then Ok (error_response 400 "Text is required")
  else if pystr_eqb export_format (py "pdf") then
    file_bytes <- create_pdf w text replacements ;;
    Ok (file_response (filename w ".pdf") file_bytes pdf_type)
  else if pystr_eqb export_format (py "docx") then
    file_bytes <- create_docx w text replacements ;;
    Ok (file_response (filename w ".docx") file_bytes docx_type)
  else Ok (error_response 400 "Invalid format. Use pdf or docx").

Definition handler (w : world) (ev : event) : response :=
  let method := method_of ev in
  if eq_str method (py "OPTIONS") then options_response
  else if eq_str method (py "POST") then
    try_except (handler_post w ev) (fun e => json_response 500 (BodyError e))
  else error_response 405 "Method not allowed".

(** The flat text as the specification describes it: a title, the
    generation timestamp, the body, then the replacement list, the last
    only when there is a replacement. *)
Definition spec_replacement_text (rep : dict) : pystr :=
  py "  " ++ format_value (dict_get rep (py "original") (JStr []))
    ++ py " " ++ arrow ++ py " "
    ++ format_value (dict_get rep (py "replacement") (JStr []))
    ++ py " (" ++ format_value (dict_get rep (py "timestamp") (JStr []))
    ++ py ")" ++ nl.

Definition spec_flat_text (generated body : pystr) (history : list pystr) : pystr :=
  (py "SYNAPSE - EXPORTED DOCUMENT" ++ nl)
    ++ (py "Generated: " ++ generated ++ nl)
    ++ nl
    ++ (py "MAIN TEXT:" ++ nl ++ body ++ nl)
    ++ nl
    ++ match history with
       | [] => []
       | _ :: _ => (nl ++ py "REPLACEMENT HISTORY:" ++ nl) ++ List.concat history
       end.

End Runtime.

End Exporter.

(** ** String methods used by the synonym handler *)

(** [c.isspace()], the set [str.strip()] removes: the ASCII controls
    U+0009..U+000D and U+001C..U+001F, the space, and the Unicode
    separators. *)
Definition isspace (c : N) : bool :=
  ((9 <=? c) && (c <=? 13) || (28 <=? c) && (c <=? 32)
   || (c =? 133) || (c =? 160) || (c =? 5760)
   || (8192 <=? c) && (c <=? 8202)
   || (c =? 8232) || (c =? 8233) || (c =? 8239) || (c =? 8287)
   || (c =? 12288))%N.

Fixpoint lstrip (s : pystr) : pystr :=
  match s with
  | [] => []
  | c :: s' => if isspace c then lstrip s' else s
  end.

Definition rstrip (s : pystr) : pystr := rev (lstrip (rev s)).

(** [s.strip()] *)
Definition strip (s : pystr) : pystr := rstrip (lstrip s).

(** [s.startswith(prefix)] *)
Fixpoint startswith (s prefix : pystr) : bool :=
  match prefix, s with
  | [], _ => true
  | p :: prefix', c :: s' => N.eqb c p && startswith s' prefix'
  | _ :: _, [] => false
  end.

(** [s.split(sep)] for a non-empty [sep]: [skip] counts the characters
    of a separator still to pass over, [cur] holds the current piece
    reversed. *)
Fixpoint split_go (sep : pystr) (skip : nat) (cur s : pystr) : list pystr :=
  match s with
  | [] => [rev cur]
  | c :: s' =>
      match skip with
      | S k => split_go sep k cur s'
      | O =>
          if startswith s sep
          then rev cur :: split_go sep (List.length sep - 1) [] s'
          else split_go sep 0 (c :: cur) s'
      end
  end.

Definition split (s sep : pystr) : list pystr := split_go sep 0 [] s.

(** [a <= b] on strings: code point by code point, a proper prefix
    being smaller. *)
Fixpoint pystr_leb (a b : pystr) : bool :=
  match a, b with
  | [], _ => true
  | _ :: _, [] => false
  | x :: a', y :: b' =>
      if (x <? y)%N then true
      else if (x =? y)%N then pystr_leb a' b'
      else false
  end.

(** [sum(1 for c in text if p(c))] *)
Fixpoint count (p : N -> bool) (text : pystr) : nat :=
  match text with
  | [] => 0
  | c :: text' => (if p c then 1 else 0) + count p text'
  end.

Definition fence : pystr := py "```".

(** ** backend/synonyms/index.py *)

Module Synonyms.

(** An outbound HTTP request, as [urlopen] issues it. *)
Inductive request : Type :=
| DatamuseGet (word : pystr)
| OpenAIPost (word : pystr) (context : json) (russian : bool).

(** What one invocation reads from outside: the environment variable,
    and for each service the outcome of
    [json.loads(urlopen(req, timeout=...).read().decode())], which is the
    parsed reply or whatever the chain raises (no route, a timeout, a
    reply that is not JSON). *)
Record world : Type := mkWorld {
  OPENAI_API_KEY : option pystr;
  datamuse : pystr -> result json;
  openai : pystr -> json -> bool -> result json
}.

(** A value together with the requests issued while computing it. *)
Definition traced (A : Type) : Type := (A * list request)%type.

(** The dict [{'word': ..., 'score': ...}] of [get_datamuse_synonyms]. *)
Record hit : Type := mkHit {
  hit_word : json;
  hit_score : json
}.

Definition options_response : response :=
  mkResponse 200
    [("Access-Control-Allow-Origin", "*");
     ("Access-Control-Allow-Methods", "GET, POST, OPTIONS");
     ("Access-Control-Allow-Headers", "Content-Type");
     ("Access-Control-Max-Age", "86400")]%string
    BodyEmpty false.

Definition is_cyrillic (c : N) : bool := ((1024 <=? c) && (c <=? 1279))%N.

(** [{'word': item['word'], 'score': item.get('score', 0)}] *)
Definition datamuse_hit (item : json) : result hit :=
  w <- subscript item (py "word") ;;
  s <- get item (py "score") (JInt 0) ;;
  Ok (mkHit w s).

Fixpoint datamuse_hits (items : list json) : result (list hit) :=
  match items with
  | [] => Ok []
  | item :: items' =>
      h <- datamuse_hit item ;;
      hs <- datamuse_hits items' ;;
      Ok (h :: hs)
  end.

(** [urllib.parse.quote(word)] encodes the word as UTF-8 first. *)
Definition quote_ok (word : pystr) : bool :=
  match encode_utf8 word with
  | Ok _ => true
  | Raise _ => false
  end.

(** The whole body is one [try]; [except Exception] prints and returns
    [[]] (the message printed is left out of the model). *)
Definition get_datamuse_synonyms (w : world) (word : pystr) (lang : json)
  : traced (list hit) :=
  if eq_str lang (py "en") then
    if quote_ok word then
      (try_except (data <- datamuse w word ;;
                   items <- iterate data ;;
                   datamuse_hits items)
                  (fun _ => []),
       [DatamuseGet word])
    else ([], [])
  else ([], []).

(** [{'word': syn['word'], 'context': 'general synonym', 'source': 'datamuse'}] *)
Definition datamuse_entry (syn : hit) : json :=
  JObj [(py "word", hit_word syn);
        (py "context", JStr (py "general synonym"));
        (py "source", JStr (py "datamuse"))].

(** The loop over [contextual]: a dict with a ['word'] key gets
    [syn['source'] = 'contextual'] and is appended, anything else is
    passed over. *)
Fixpoint contextual_entries (contextual : list json) : list json :=
  match contextual with
  | [] => []
  | JObj d :: rest =>
      if dict_mem d (py "word")
      then JObj (dict_set d (py "source") (JStr (py "contextual")))
             :: contextual_entries rest
      else contextual_entries rest
  | _ :: rest => contextual_entries rest
  end.

(** [context[:200]] *)
Definition slice200 (context : json) : result json :=
  match context with
  | JStr s => Ok (JStr (firstn 200 s))
  | JArr l => Ok (JArr (firstn 200 l))
  | _ => Raise TypeError
  end.

Definition ok_response (word : pystr) (lang : json) (synonyms : list json)
  : response :=
  json_response 200
    (BodyJson (JObj [(py "word", JStr word);
                     (py "language", lang);
                     (py "synonyms", JArr synonyms);
                     (py "count", JInt (Z.of_nat (List.length synonyms)))])).

(** [event.get('httpMethod', 'GET')] *)
Definition method_of (ev : event) : json :=
  match httpMethod ev with
  | Some m => m
  | None => JStr (py "GET")
  end.

Section Runtime.

(** [str.lower] *)
Variable lower : pystr -> pystr.
(** [json.loads] on the text of the model's reply *)
Variable json_loads : pystr -> result json.

(** ['a' <= c.lower() <= 'z'] *)
Definition is_latin (c : N) : bool :=
  pystr_leb (py "a") (lower [c]) && pystr_leb (lower [c]) (py "z").

(** Counts Cyrillic and Latin characters; [ru] needs strictly more
    Cyrillic ones. *)
Definition detect_language (text : pystr) : pystr :=
  let cyrillic_chars := count is_cyrillic text in
  let latin_chars := count is_latin text in
  if latin_chars <? cyrillic_chars then py "ru" else py "en".

(** [x.strip()]: only a [str] has the method. *)
Definition strip_method (x : json) : result pystr :=
  match x with
  | JStr s => Ok (strip s)
  | _ => Raise AttributeError
  end.

(** The reply's text without its Markdown fence. *)
Definition unfence (content : pystr) : result pystr :=
  if startswith content fence then
    match nth_error (split content fence) 1 with
    | Some inner =>
        Ok (if startswith inner (py "json") then skipn 4 inner else inner)
    | None => Raise IndexError
    end
  else Ok content.

(** What follows [urlopen] inside the [with] block. *)
Definition read_reply (reply : json) : result (list json) :=
  choices <- subscript reply (py "choices") ;;
  choice <- subscript0 choices ;;
  message <- subscript choice (py "message") ;;
  raw <- subscript message (py "content") ;;
  content <- strip_method raw ;;
  content <- unfence content ;;
  synonyms <- json_loads content ;;
  Ok (match synonyms with JArr l => l | _ => [] end).

(** No credential: [[]] at once.  Otherwise everything up to the reply's
    parsing sits in one [try]; [except Exception] prints and returns
    [[]] (the message printed is left out of the model). *)
Definition get_contextual_synonyms (w : world) (word : pystr) (context lang : json)
  : traced (list json) :=
  match OPENAI_API_KEY w with
  | None | Some [] => ([], [])
  | Some (_ :: _) =>
      match slice200 context with
      | Raise _ => ([], [])
      | Ok shown =>
          let russian := eq_str lang (py "ru") in
          (try_except (reply <- openai w word shown russian ;; read_reply reply)
                      (fun _ => []),
           [OpenAIPost word shown russian])
      end
  end.

(** [body_data.get('word', '').strip().lower()] *)
Definition normalize (x : json) : result pystr :=
  s <- strip_method x ;;
  Ok (lower s).

(** [context and len(context) > 10] *)
Definition long_context (context : json) : result bool :=
  if truthy context then n <- len context ;; Ok (10 <? n) else Ok false.

(** The three fields the [try] block of [handler] reads first. *)
Definition read_fields (ev : event) : result (pystr * json * json) :=
  body_data <- loads_body ev ;;
  raw <- get body_data (py "word") (JStr []) ;;
  word <- normalize raw ;;
  context <- get body_data (py "context") (JStr []) ;;
  lang <- get body_data (py "lang") (JStr []) ;;
  Ok (word, context, lang).

(** The body of the [try] block, with the requests it issued (they stay
    issued when a later statement raises). *)
Definition handler_post (w : world) (ev : event) : traced (result response) :=
  match read_fields ev with
  | Raise e => (Raise e, [])
  | Ok (word, context, lang) =>
      match word with
      | [] => (Ok (error_response 400 "Word is required"), [])
      | _ :: _ =>
          let lang := if truthy lang then lang else JStr (detect_language word) in
          let '(general, sent1) :=
            if eq_str lang (py "en") then
              let '(datamuse_results, sent) := get_datamuse_synonyms w word lang in
              (map datamuse_entry (firstn 5 datamuse_results), sent)
            else ([], []) in
          match long_context context with
          | Raise e => (Raise e, sent1)
          | Ok false => (Ok (ok_response word lang general), sent1)
          | Ok true =>
              let '(contextual, sent2) := get_contextual_synonyms w word context lang in
              (Ok (ok_response word lang (general ++ contextual_entries contextual)),
               sent1 ++ sent2)
          end
      end
  end.

Definition handler (w : world) (ev : event) : traced response :=
  let method := method_of ev in
  if eq_str method (py "OPTIONS") then (options_response, [])
  else if eq_str method (py "POST") then
    let '(r, sent) := handler_post w ev in
    (try_except r (fun e => json_response 500 (BodyError e)), sent)
  else (error_response 405 "Method not allowed", []).

(** [lang] after [if not lang: lang = detect_language(word)] *)
Definition resolved_lang (word : pystr) (lang : json) : json :=
  if truthy lang then lang else JStr (detect_language word).

(** The entries and requests of the [if lang == 'en':] step. *)
Definition general_step (w : world) (word : pystr) (lang : json)
  : traced (list json) :=
  if eq_str lang (py "en") then
    (map datamuse_entry
       (firstn 5 (fst (get_datamuse_synonyms w word lang))),
     snd (get_datamuse_synonyms w word lang))
  else ([], []).

(** The entries and requests of the [if context and len(context) > 10:]
    step, [long] being the outcome of the test. *)
Definition contextual_step (w : world) (word : pystr) (context lang : json)
  (long : bool) : traced (list json) :=
  if long then
    (contextual_entries (fst (get_contextual_synonyms w word context lang)),
     snd (get_contextual_synonyms w word context lang))
  else ([], []).

End Runtime.

End Synonyms.

(** ** Vocabulary of the statements, and sample requests *)

(** The language-model credential is set (and not the empty string). *)
Definition has_credential (w : Synonyms.world) : bool :=
  match Synonyms.OPENAI_API_KEY w with
  | Some (_ :: _) => true
  | _ => false
  end.

(** The request goes to the language model. *)
Definition is_openai (r : Synonyms.request) : bool :=
  match r with
  | Synonyms.OpenAIPost _ _ _ => true
  | Synonyms.DatamuseGet _ => false
  end.

(** An entry of the exact shape
    [{word, context: 'general synonym', source: 'datamuse'}]. *)
Definition datamuse_shaped (e : json) : Prop :=
  exists word : json,
    e = JObj [(py "word", word);
              (py "context", JStr (py "general synonym"));
              (py "source", JStr (py "datamuse"))].

(** A dict containing a ['word'] key. *)
Definition word_dict (v : json) : bool :=
  match v with
  | JObj d => dict_mem d (py "word")
  | _ => false
  end.


(** A dict with a ['word'] key whose ['source'] is the given one. *)
Definition has_source (e : json) (source : string) : Prop :=
  exists d : dict,
    e = JObj d /\ dict_mem d (py "word") = true
    /\ dict_lookup d (py "source") = Some (JStr (py source)).

(** A POST whose body parses to [b]. *)
Definition post (b : json) : event :=
  mkEvent (Some (JStr (py "POST"))) (Some (Ok b)).

(** [{"text": "", "format": 5}] *)
Definition empty_text_numeric_format : event :=
  post (JObj [(py "text", JStr []); (py "format", JInt 5)]).

(** [{"text": "hello", "format": null}] *)
Definition hello_null_format : event :=
  post (JObj [(py "text", JStr (py "hello")); (py "format", JNull)]).

(** [{"text": "", "format": "txt"}] *)
Definition empty_text_txt : event :=
  post (JObj [(py "text", JStr []); (py "format", JStr (py "txt"))]).

(** [{"text": "hello", "format": "docx"}] *)
Definition hello_docx : event :=
  post (JObj [(py "text", JStr (py "hello")); (py "format", JStr (py "docx"))]).

(** A runtime for the sample runs: [str.lower] on ASCII text, where it
    moves [A-Z] onto [a-z] and leaves the rest. *)
Definition ascii_lower (s : pystr) : pystr :=
  map (fun c => if ((65 <=? c) && (c <=? 90))%N then (c + 32)%N else c) s.

(** A machine without [reportlab] and [docx], at a fixed time. *)
Definition bare_machine : Exporter.world :=
  Exporter.mkWorld (py "2024-01-02 03:04:05") (py "20240102-030405")
    (fun _ _ => Raise ImportError) (fun _ _ => Raise ImportError).

(** A stand-in for [str(v)]; the sample requests format strings only. *)
Definition plain_str_of (v : json) : pystr := py "?".

(** The model's reply text is [```json LIST ```]; [json.loads] on what is
    left once the fence is gone. *)
Definition sample_loads (content : pystr) : result json :=
  if pystr_eqb (strip content) (py "LIST") then
    Ok (JArr [JObj [(py "word", JStr (py "joyful")); (py "source", JStr (py "model"))];
              JStr (py "cheerful");
              JObj [(py "context", JStr (py "no word here"))]])
  else Raise JSONDecodeError.

(** The chat-completion reply that carries this text. *)
Definition sample_reply : json :=
  JObj [(py "choices",
         JArr [JObj [(py "message",
                      JObj [(py "content",
                             JStr (fence ++ py "json LIST " ++ fence))])]])].

(** The synonym API answers, no credential is set. *)
Definition thesaurus_online : Synonyms.world :=
  Synonyms.mkWorld None
    (fun _ => Ok (JArr [JObj [(py "word", JStr (py "glad")); (py "score", JInt 90)];
                        JObj [(py "word", JStr (py "content"))]]))
    (fun _ _ _ => Raise URLError).

(** Nothing can be reached and no credential is set. *)
Definition offline : Synonyms.world :=
  Synonyms.mkWorld None (fun _ => Raise URLError) (fun _ _ _ => Raise URLError).

(** The credential is set and the model answers; the synonym API is down. *)
Definition model_online : Synonyms.world :=
  Synonyms.mkWorld (Some (py "sk-test")) (fun _ => Raise TimeoutError)
    (fun _ _ _ => Ok sample_reply).

(** [{"word": "   "}] *)
Definition blank_word : event :=
  post (JObj [(py "word", JStr (py "   "))]).

(** [{"word": " Happy", "lang": "en"}] *)
Definition happy_en : event :=
  post (JObj [(py "word", JStr (py " Happy")); (py "lang", JStr (py "en"))]).

(** The word [радостный], no language given. *)
Definition radostny : pystr :=
  [1088; 1072; 1076; 1086; 1089; 1090; 1085; 1099; 1081]%N.

Definition radostny_request : event := post (JObj [(py "word", JStr radostny)]).

(** [{"word": "happy", "context": "a happy day at the sea"}] *)
Definition happy_in_context : event :=
  post (JObj [(py "word", JStr (py "happy"));
              (py "context", JStr (py "a happy day at the sea"))]).

(** A code point [str.encode('utf-8')] accepts: any but the surrogates
    U+D800..U+DFFF, up to U+10FFFF. *)
Definition encodable (c : N) : bool :=
  ((c <? 55296) || (57343 <? c) && (c <? 1114112))%N.

(** A machine whose [reportlab] and [docx] are installed and break with
    an error of their own. *)
Definition broken_renderers : Exporter.world :=
  Exporter.mkWorld (py "2024-01-02 03:04:05") (py "20240102-030405")
    (fun _ _ => Raise (OtherError (py "font not found")))
    (fun _ _ => Raise (OtherError (py "template missing"))).

(** [{"text": "hello"}] *)
Definition hello_only : event :=
  post (JObj [(py "text", JStr (py "hello"))]).

(** [{"text": "hi", "replacements": ["big"]}] *)
Definition hi_bad_history : event :=
  post (JObj [(py "text", JStr (py "hi"));
              (py "replacements", JArr [JStr (py "big")])]).

(** A body that is the JSON list [[1]]. *)
Definition list_body : event := post (JArr [JInt 1]).

(** [{"word": "happy", "context": 5}] *)
Definition happy_numeric_context : event :=
  post (JObj [(py "word", JStr (py "happy")); (py "context", JInt 5)]).

(** [{"word": 7}] *)
Definition numeric_word : event := post (JObj [(py "word", JInt 7)]).

(** The record [get_datamuse_synonyms] makes of a reply item. *)
Definition hit_of (item : dict) : Synonyms.hit :=
  Synonyms.mkHit (dict_get item (py "word") JNull)
    (dict_get item (py "score") (JInt 0)).

(** The character [`]. *)
Definition backtick : N := 96%N.

(** At most one request to each service, the synonym API first. *)
Definition one_each (sent : list Synonyms.request) : Prop :=
  exists d o : list Synonyms.request,
    sent = d ++ o
    /\ (d = [] \/ exists word, d = [Synonyms.DatamuseGet word])
    /\ (o = [] \/ exists word shown russian,
                    o = [Synonyms.OpenAIPost word shown russian]).

(** Reading UTF-8 back, as a client opening the fallback file does: the
    first byte of a character tells how many bytes follow. *)
Fixpoint decode_utf8 (bs : bytes) : option pystr :=
  match bs with
  | [] => Some []
  | b1 :: r1 =>
      let n1 := Byte.to_N b1 in
      if (n1 <? 128)%N then option_map (cons n1) (decode_utf8 r1)
      else if (n1 <? 192)%N then None
      else if (n1 <? 224)%N then
        match r1 with
        | b2 :: r2 =>
            option_map (cons ((n1 - 192) * 64 + (Byte.to_N b2 - 128))%N)
              (decode_utf8 r2)
        | _ => None
        end
      else if (n1 <? 240)%N then
        match r1 with
        | b2 :: b3 :: r3 =>
            option_map
              (cons ((n1 - 224) * 4096 + (Byte.to_N b2 - 128) * 64
                     + (Byte.to_N b3 - 128))%N)
              (decode_utf8 r3)
        | _ => None
        end
      else
        match r1 with
        | b2 :: b3 :: b4 :: r4 =>
            option_map
              (cons ((n1 - 240) * 262144 + (Byte.to_N b2 - 128) * 4096
                     + (Byte.to_N b3 - 128) * 64 + (Byte.to_N b4 - 128))%N)
              (decode_utf8 r4)
        | _ => None
        end
  end.

(** [{"word": "happy", "context": {"topic": "sea"}}] *)
Definition happy_object_context : event :=
  post (JObj [(py "word", JStr (py "happy"));
              (py "context", JObj [(py "topic", JStr (py "sea"))])]).

(** A request without [httpMethod] and without [body]. *)
Definition bare_event : event := mkEvent None None.

(** One replacement record. *)
Definition big_to_large : dict :=
  [(py "original", JStr (py "big")); (py "replacement", JStr (py "large"))].

(** Proof tools. *)

Ltac split_compare :=
  repeat match goal with
    | |- context [(?a <? ?b)%N] => destruct (N.ltb_spec a b)
    | |- context [(?a <=? ?b)%N] => destruct (N.leb_spec a b)
    | |- context [(?a =? ?b)%N] => destruct (N.eqb_spec a b)
    end; cbn [andb orb negb].

Ltac euclid := zify; Z.to_euclidean_division_equations; lia.

(** * Properties *)

(** ** Strings and codecs *)

Arguments py : simpl never.

Example b64encode_Man : b64encode [x4d; x61; x6e] = py "TWFu".
Proof. reflexivity. Qed.

Example b64encode_Ma : b64encode [x4d; x61] = py "TWE=".
Proof. reflexivity. Qed.

Example b64encode_M : b64encode [x4d] = py "TQ==".
Proof. reflexivity. Qed.

Example b64decode_Ma : b64decode (py "TWE=") = Some [x4d; x61].
Proof. reflexivity. Qed.

Example encode_utf8_arrow : encode_utf8 [8594%N] = Ok [xe2; x86; x92].
Proof. reflexivity. Qed.

Example split_fenced :
  split (fence ++ py "json[]" ++ fence ++ py "x") fence = [[]; py "json[]"; py "x"].
Proof. reflexivity. Qed.

Example strip_spaces : strip (py "  happy day ") = py "happy day".
Proof. reflexivity. Qed.

Example export_txt_is_400 :
  Exporter.handler ascii_lower plain_str_of bare_machine
    (post (JObj [(py "text", JStr (py "hello")); (py "format", JStr (py "txt"))]))
  = error_response 400 "Invalid format. Use pdf or docx".
Proof. vm_compute. reflexivity. Qed.

Example export_upper_PDF_is_200 :
  statusCode
    (Exporter.handler ascii_lower plain_str_of bare_machine
       (post (JObj [(py "text", JStr (py "hello")); (py "format", JStr (py "PDF"))])))
  = 200%Z.
Proof. vm_compute. reflexivity. Qed.

Example export_get_is_405 :
  Exporter.handler ascii_lower plain_str_of bare_machine
    (mkEvent (Some (JStr (py "GET"))) None)
  = error_response 405 "Method not allowed".
Proof. vm_compute. reflexivity. Qed.

Example fallback_with_history :
  Exporter.create_simple_pdf_fallback plain_str_of bare_machine (JStr (py "hi"))
    (JArr [JObj [(py "original", JStr (py "big")); (py "replacement", JStr (py "large"))]])
  = encode_utf8
      (py "SYNAPSE - EXPORTED DOCUMENT" ++ Exporter.nl
         ++ py "Generated: 2024-01-02 03:04:05" ++ Exporter.nl ++ Exporter.nl
         ++ py "MAIN TEXT:" ++ Exporter.nl ++ py "hi" ++ Exporter.nl ++ Exporter.nl
         ++ Exporter.nl ++ py "REPLACEMENT HISTORY:" ++ Exporter.nl
         ++ py "  big " ++ Exporter.arrow ++ py " large ()" ++ Exporter.nl).
Proof. vm_compute. reflexivity. Qed.

Example detect_tie_is_en :
  Synonyms.detect_language ascii_lower [1103%N; 97%N] = py "en".
Proof. reflexivity. Qed.

Example detect_radostny_is_ru :
  Synonyms.detect_language ascii_lower radostny = py "ru".
Proof. reflexivity. Qed.

Example synonyms_default_method_is_405 :
  Synonyms.handler ascii_lower sample_loads offline (mkEvent None None)
  = (error_response 405 "Method not allowed", []).
Proof. vm_compute. reflexivity. Qed.

Lemma pystr_eqb_refl (a : pystr) : pystr_eqb a a = true.
Proof.
  induction a as [|x a IH]; simpl; [reflexivity|].
  now rewrite N.eqb_refl, IH.
Qed.

Lemma pystr_eqb_eq (a b : pystr) : pystr_eqb a b = true <-> a = b.
Proof.
  split; [|intros ->; apply pystr_eqb_refl].
  revert b; induction a as [|x a IH]; intros [|y b]; simpl; try discriminate; auto.
  intros H; apply andb_prop in H as [Hx Hab].
  apply N.eqb_eq in Hx; subst y.
  now rewrite (IH b Hab).
Qed.

Lemma pystr_eqb_neq (a b : pystr) : a <> b -> pystr_eqb a b = false.
Proof.
  intros Hne; destruct (pystr_eqb a b) eqn:E; [|reflexivity].
  now apply pystr_eqb_eq in E.
Qed.

Lemma byte_of_to_N (b : byte) : byte_of_N (Byte.to_N b) = b.
Proof. unfold byte_of_N; now rewrite Byte.of_to_N. Qed.

Lemma byte_of_N_eq (n : N) (b : byte) : n = Byte.to_N b -> byte_of_N n = b.
Proof. intros ->; apply byte_of_to_N. Qed.

Lemma to_N_lt_256 (b : byte) : (Byte.to_N b < 256)%N.
Proof. pose proof (Byte.to_N_bounded b); lia. Qed.

Lemma b64_value_char (i : N) : (i < 64)%N -> b64_value (b64_char i) = Some i.
Proof.
  intros Hi; unfold b64_value, b64_char.
  split_compare; try lia; f_equal; lia.
Qed.

Lemma b64_char_not_pad (i : N) : (b64_char i =? b64_pad)%N = false.
Proof.
  unfold b64_char, b64_pad; apply N.eqb_neq.
  split_compare; lia.
Qed.

Lemma b64decode_group (s1 s2 s3 s4 : N) (rest : pystr) :
  (s1 < 64)%N -> (s2 < 64)%N -> (s3 < 64)%N -> (s4 < 64)%N ->
  b64decode (b64_char s1 :: b64_char s2 :: b64_char s3 :: b64_char s4 :: rest) =
  match b64decode rest with
  | Some tl =>
      Some (byte_of_N (s1 * 4 + s2 / 16) :: byte_of_N ((s2 mod 16) * 16 + s3 / 4)
              :: byte_of_N ((s3 mod 4) * 64 + s4) :: tl)
  | None => None
  end.
Proof.
  intros H1 H2 H3 H4.
  cbn [b64decode].
  rewrite !b64_value_char, !b64_char_not_pad by assumption.
  reflexivity.
Qed.

Lemma b64decode_tail2 (s1 s2 s3 : N) :
  (s1 < 64)%N -> (s2 < 64)%N -> (s3 < 64)%N ->
  b64decode [b64_char s1; b64_char s2; b64_char s3; b64_pad] =
  Some [byte_of_N (s1 * 4 + s2 / 16); byte_of_N ((s2 mod 16) * 16 + s3 / 4)].
Proof.
  intros H1 H2 H3.
  cbn [b64decode].
  rewrite !b64_value_char, !b64_char_not_pad, N.eqb_refl by assumption.
  reflexivity.
Qed.

Lemma b64decode_tail1 (s1 s2 : N) :
  (s1 < 64)%N -> (s2 < 64)%N ->
  b64decode [b64_char s1; b64_char s2; b64_pad; b64_pad] =
  Some [byte_of_N (s1 * 4 + s2 / 16)].
Proof.
  intros H1 H2.
  cbn [b64decode].
  rewrite !b64_value_char, !N.eqb_refl by assumption.
  reflexivity.
Qed.

(** Decoding undoes encoding, whatever the bytes. *)
Lemma b64_roundtrip_upto (n : nat) :
  forall bs : bytes, (List.length bs <= n)%nat -> b64decode (b64encode bs) = Some bs.
Proof.
  induction n as [|n IH]; intros bs Hlen.
  - destruct bs; [reflexivity | simpl in Hlen; lia].
  - destruct bs as [|a [|b [|c rest]]].
    + reflexivity.
    + cbn [b64encode]; cbv zeta.
      pose proof (to_N_lt_256 a).
      rewrite b64decode_tail1 by euclid.
      do 2 f_equal. apply byte_of_N_eq; euclid.
    + cbn [b64encode]; cbv zeta.
      pose proof (to_N_lt_256 a); pose proof (to_N_lt_256 b).
      rewrite b64decode_tail2 by euclid.
      f_equal. f_equal; [|f_equal].
      * apply byte_of_N_eq; euclid.
      * apply byte_of_N_eq; euclid.
    + cbn [b64encode]; cbv zeta.
      pose proof (to_N_lt_256 a); pose proof (to_N_lt_256 b);
        pose proof (to_N_lt_256 c).
      rewrite b64decode_group by euclid.
      rewrite IH by (simpl in Hlen; lia).
      f_equal. f_equal; [|f_equal; [|f_equal]].
      * apply byte_of_N_eq; euclid.
      * apply byte_of_N_eq; euclid.
      * apply byte_of_N_eq; euclid.
Qed.

Lemma b64_roundtrip (bs : bytes) : b64decode (b64encode bs) = Some bs.
Proof. apply (b64_roundtrip_upto (List.length bs)); lia. Qed.

(** ** The export handler *)

Section ExporterProperties.

Variable lower : pystr -> pystr.
Variable str_of : json -> pystr.

Local Abbreviation handler := (Exporter.handler lower str_of).
Local Abbreviation create_pdf := (Exporter.create_pdf str_of).
Local Abbreviation create_docx := (Exporter.create_docx str_of).

(** A POST whose body is a dict reaches the two [if]s once its format
    is a string. *)
Lemma export_post_dict (w : Exporter.world) (ev : event) (d : dict) (f : pystr) :
  Exporter.method_of ev = JStr (py "POST") ->
  loads_body ev = Ok (JObj d) ->
  dict_get d (py "format") (JStr (py "pdf")) = JStr f ->
  handler w ev =
  try_except
    (let text := dict_get d (py "text") (JStr []) in
     let replacements := dict_get d (py "replacements") (JArr []) in
     if negb (truthy text) then Ok (error_response 400 "Text is required")
     else if pystr_eqb (lower f) (py "pdf") then
       file_bytes <- create_pdf w text replacements ;;
       Ok (Exporter.file_response (Exporter.filename w ".pdf") file_bytes
             Exporter.pdf_type)
     else if pystr_eqb (lower f) (py "docx") then
       file_bytes <- create_docx w text replacements ;;
       Ok (Exporter.file_response (Exporter.filename w ".docx") file_bytes
             Exporter.docx_type)
     else Ok (error_response 400 "Invalid format. Use pdf or docx"))
    (fun e => json_response 500 (BodyError e)).
Proof.
  intros Hm Hb Hf.
  unfold Exporter.handler, Exporter.handler_post.
  rewrite Hm, Hb. cbn [bind get]. rewrite Hf.
  reflexivity.
Qed.

(** A format that is not a string stops the handler at [.lower()],
    before either check. *)
Lemma export_format_not_str (w : Exporter.world) (ev : event) (d : dict) :
  Exporter.method_of ev = JStr (py "POST") ->
  loads_body ev = Ok (JObj d) ->
  (forall s, dict_get d (py "format") (JStr (py "pdf")) <> JStr s) ->
  handler w ev = json_response 500 (BodyError AttributeError).
Proof.
  intros Hm Hb Hf.
  unfold Exporter.handler, Exporter.handler_post.
  rewrite Hm, Hb. cbn [bind get].
  destruct (dict_get d (py "format") (JStr (py "pdf"))) eqn:E;
    try reflexivity.
  now elim (Hf s).
Qed.

Lemma history_lines_dicts (ds : list dict) :
  Exporter.history_lines str_of (map JObj ds) =
  Ok (List.concat (map (Exporter.spec_replacement_text str_of) ds)).
Proof.
  induction ds as [|d ds IH]; [reflexivity|].
  cbn [map Exporter.history_lines].
  rewrite IH. reflexivity.
Qed.

(** C1 (as amended). A POST whose body is a JSON object with an empty or
    absent [text] gets the 400 response "Text is required" whatever the
    format says, recognised or not, as long as [format] is absent or a
    string. *)
Theorem export_empty_text_400 (w : Exporter.world) (ev : event) (d : dict) :
  Exporter.method_of ev = JStr (py "POST") ->
  loads_body ev = Ok (JObj d) ->
  truthy (dict_get d (py "text") (JStr [])) = false ->
  (dict_lookup d (py "format") = None
   \/ exists s, dict_lookup d (py "format") = Some (JStr s)) ->
  handler w ev = error_response 400 "Text is required".
Proof.
  intros Hm Hb Ht Hf.
  assert (exists f, dict_get d (py "format") (JStr (py "pdf")) = JStr f) as [f Hf'].
  { unfold dict_get. destruct Hf as [-> | [s ->]]; eauto. }
  rewrite (export_post_dict w ev d f Hm Hb Hf').
  cbv zeta. rewrite Ht. reflexivity.
Qed.

(** C2 (as amended). A POST with a non-empty [text] and a [format] that
    is absent or a string is routed by the lowercased format: [pdf] to
    [create_pdf], [docx] to [create_docx], anything else to the 400
    response "Invalid format"; an absent format stands for [pdf]. *)
Theorem export_format_dispatch (w : Exporter.world) (ev : event) (d : dict) (f : pystr) :
  Exporter.method_of ev = JStr (py "POST") ->
  loads_body ev = Ok (JObj d) ->
  truthy (dict_get d (py "text") (JStr [])) = true ->
  dict_get d (py "format") (JStr (py "pdf")) = JStr f ->
  (lower f = py "pdf" ->
   handler w ev =
   try_except
     (file_bytes <- create_pdf w (dict_get d (py "text") (JStr []))
                      (dict_get d (py "replacements") (JArr [])) ;;
      Ok (Exporter.file_response (Exporter.filename w ".pdf") file_bytes
            Exporter.pdf_type))
     (fun e => json_response 500 (BodyError e)))
  /\ (lower f = py "docx" ->
      handler w ev =
      try_except
        (file_bytes <- create_docx w (dict_get d (py "text") (JStr []))
                         (dict_get d (py "replacements") (JArr [])) ;;
         Ok (Exporter.file_response (Exporter.filename w ".docx") file_bytes
               Exporter.docx_type))
        (fun e => json_response 500 (BodyError e)))
  /\ (lower f <> py "pdf" -> lower f <> py "docx" ->
      handler w ev = error_response 400 "Invalid format. Use pdf or docx")
  /\ (dict_lookup d (py "format") = None -> f = py "pdf").
Proof.
  intros Hm Hb Ht Hf.
  rewrite (export_post_dict w ev d f Hm Hb Hf). cbv zeta. rewrite Ht.
  cbn [negb].
  repeat split.
  - intros ->. reflexivity.
  - intros ->. reflexivity.
  - intros Hp Hd.
    now rewrite (pystr_eqb_neq _ _ Hp), (pystr_eqb_neq _ _ Hd).
  - intros Hn. unfold dict_get in Hf. rewrite Hn in Hf. now inversion Hf.
Qed.

(** C3. When neither rendering library can be imported, [create_pdf] and
    [create_docx] both return what the one fallback encoder returns for
    the same text, replacements and clock reading; on a list of
    replacement records that is the UTF-8 encoding of the title, the
    generation timestamp, the body and then one line per replacement,
    the list being left out when there is none. *)
Theorem fallback_is_shared (w : Exporter.world) (text replacements : json) :
  Exporter.reportlab w text replacements = Raise ImportError ->
  Exporter.python_docx w text replacements = Raise ImportError ->
  create_pdf w text replacements =
    Exporter.create_simple_pdf_fallback str_of w text replacements
  /\ create_docx w text replacements =
       Exporter.create_simple_pdf_fallback str_of w text replacements
  /\ create_pdf w text replacements = create_docx w text replacements
  /\ (forall reps : list dict,
        replacements = JArr (map JObj reps) ->
        Exporter.create_simple_pdf_fallback str_of w text replacements =
        encode_utf8
          (Exporter.spec_flat_text (Exporter.generated_at w)
             (Exporter.format_value str_of text)
             (map (Exporter.spec_replacement_text str_of) reps))).
Proof.
  intros Hpdf Hdocx.
  assert (Hp : create_pdf w text replacements =
               Exporter.create_simple_pdf_fallback str_of w text replacements).
  { unfold Exporter.create_pdf. now rewrite Hpdf. }
  assert (Hd : create_docx w text replacements =
               Exporter.create_simple_pdf_fallback str_of w text replacements).
  { unfold Exporter.create_docx. now rewrite Hdocx. }
  repeat split; try assumption.
  - now rewrite Hp, Hd.
  - intros reps ->.
    unfold Exporter.create_simple_pdf_fallback, Exporter.spec_flat_text,
      Exporter.fallback_head, Exporter.history_title.
    destruct reps as [|r reps].
    + cbn [map truthy bind]. now rewrite !app_nil_r, <- !app_assoc.
    + cbn [truthy map iterate bind].
      change (JObj r :: map JObj reps) with (map JObj (r :: reps)).
      rewrite history_lines_dicts. cbn [bind map].
      now rewrite <- !app_assoc.
Qed.

(** C10. A 200 response of the export handler is either the empty
    preflight answer or carries a file: then [content] is the base64
    text of the bytes the build routine returned, [size] is the number
    of those bytes, and decoding [content] gives back exactly these
    [size] bytes. *)
Theorem export_content_and_size (w : Exporter.world) (ev : event) :
  statusCode (handler w ev) = 200%Z ->
  handler w ev = Exporter.options_response
  \/ exists (text replacements : json) (file_bytes : bytes),
       (create_pdf w text replacements = Ok file_bytes
        \/ create_docx w text replacements = Ok file_bytes)
       /\ field (handler w ev) (py "content") = Some (JStr (b64encode file_bytes))
       /\ field (handler w ev) (py "size")
            = Some (JInt (Z.of_nat (List.length file_bytes)))
       /\ exists decoded : bytes,
            b64decode (b64encode file_bytes) = Some decoded
            /\ decoded = file_bytes
            /\ Z.of_nat (List.length decoded) = Z.of_nat (List.length file_bytes).
Proof.
  unfold Exporter.handler.
  destruct (eq_str (Exporter.method_of ev) (py "OPTIONS")); [now left|].
  destruct (eq_str (Exporter.method_of ev) (py "POST")); [|discriminate].
  unfold Exporter.handler_post.
  destruct (loads_body ev) as [body_data|e]; [|discriminate].
  destruct body_data as [| | | | |l|d]; try discriminate.
  cbn [bind get].
  destruct (dict_get d (py "format") (JStr (py "pdf"))) as [| | | |f| |];
    try discriminate.
  cbn [bind Exporter.lower_method].
  set (text := dict_get d (py "text") (JStr [])).
  set (replacements := dict_get d (py "replacements") (JArr [])).
  destruct (truthy text); [|discriminate].
  cbn [negb].
  destruct (pystr_eqb (lower f) (py "pdf")).
  - destruct (create_pdf w text replacements) as [file_bytes|e] eqn:E;
      [|discriminate].
    intros _. right. exists text, replacements, file_bytes.
    repeat split; auto.
    exists file_bytes. now rewrite b64_roundtrip.
  - destruct (pystr_eqb (lower f) (py "docx")); [|discriminate].
    destruct (create_docx w text replacements) as [file_bytes|e] eqn:E;
      [|discriminate].
    intros _. right. exists text, replacements, file_bytes.
    repeat split; auto.
    exists file_bytes. now rewrite b64_roundtrip.
Qed.

End ExporterProperties.

(** Sample runs of the export handler. *)

Lemma export_empty_text_400_txt :
  Exporter.handler ascii_lower plain_str_of bare_machine empty_text_txt
  = error_response 400 "Text is required".
Proof.
  apply (export_empty_text_400 ascii_lower plain_str_of bare_machine empty_text_txt
           [(py "text", JStr []); (py "format", JStr (py "txt"))]).
  - reflexivity.
  - reflexivity.
  - reflexivity.
  - right. exists (py "txt"). reflexivity.
Defined.

(** An empty text with the format [5] is answered with 500, by every
    runtime: [.lower()] is called on the format before the text is
    looked at. *)
Lemma export_empty_text_numeric_format_500 :
  (exists d : dict,
      loads_body empty_text_numeric_format = Ok (JObj d)
      /\ truthy (dict_get d (py "text") (JStr [])) = false)
  /\ (forall lower str_of w,
        Exporter.handler lower str_of w empty_text_numeric_format
        = json_response 500 (BodyError AttributeError)).
Proof.
  split.
  - eexists. split; reflexivity.
  - intros lower str_of w.
    apply (export_format_not_str lower str_of w empty_text_numeric_format
             [(py "text", JStr []); (py "format", JInt 5)]);
      [reflexivity | reflexivity | discriminate].
Qed.

Lemma export_format_dispatch_docx :
  Exporter.handler ascii_lower plain_str_of bare_machine hello_docx
  = try_except
      (file_bytes <- Exporter.create_docx plain_str_of bare_machine
                       (JStr (py "hello")) (JArr []) ;;
       Ok (Exporter.file_response (Exporter.filename bare_machine ".docx")
             file_bytes Exporter.docx_type))
      (fun e => json_response 500 (BodyError e)).
Proof.
  apply (proj1 (proj2
    (export_format_dispatch ascii_lower plain_str_of bare_machine hello_docx
       [(py "text", JStr (py "hello")); (py "format", JStr (py "docx"))]
       (py "docx") eq_refl eq_refl eq_refl eq_refl))).
  reflexivity.
Defined.

(** With a non-empty text, the format [null] is not answered with 400
    "Invalid format" but with 500, by every runtime. *)
Lemma export_null_format_500 :
  (exists d : dict,
      loads_body hello_null_format = Ok (JObj d)
      /\ truthy (dict_get d (py "text") (JStr [])) = true
      /\ dict_lookup d (py "format") = Some JNull)
  /\ (forall lower str_of w,
        Exporter.handler lower str_of w hello_null_format
        = json_response 500 (BodyError AttributeError)).
Proof.
  split.
  - eexists. repeat split; reflexivity.
  - intros lower str_of w.
    apply (export_format_not_str lower str_of w hello_null_format
             [(py "text", JStr (py "hello")); (py "format", JNull)]);
      [reflexivity | reflexivity | discriminate].
Qed.

Lemma fallback_is_shared_bare :
  Exporter.create_pdf plain_str_of bare_machine (JStr (py "hello")) (JArr [])
  = Exporter.create_docx plain_str_of bare_machine (JStr (py "hello")) (JArr []).
Proof.
  exact (proj1 (proj2 (proj2
    (fallback_is_shared plain_str_of bare_machine (JStr (py "hello")) (JArr [])
       eq_refl eq_refl)))).
Defined.

Lemma export_content_and_size_docx :
  field (Exporter.handler ascii_lower plain_str_of bare_machine hello_docx)
    (py "size") = Some (JInt 78).
Proof.
  assert (H200 : statusCode
            (Exporter.handler ascii_lower plain_str_of bare_machine hello_docx)
          = 200%Z) by (vm_compute; reflexivity).
  destruct (export_content_and_size ascii_lower plain_str_of bare_machine hello_docx
              H200) as [H | _].
  - vm_compute in H. discriminate H.
  - vm_compute. reflexivity.
Defined.

(** ** The synonym handler *)

Lemma dict_lookup_set_same (d : dict) (k : pystr) (v : json) :
  dict_lookup (dict_set d k v) k = Some v.
Proof.
  induction d as [|[k' v'] d IH]; cbn [dict_set dict_lookup].
  - now rewrite pystr_eqb_refl.
  - destruct (pystr_eqb k' k) eqn:E; cbn [dict_lookup]; rewrite E; auto.
Qed.

Lemma dict_lookup_set_other (d : dict) (k k2 : pystr) (v : json) :
  pystr_eqb k k2 = false ->
  dict_lookup (dict_set d k v) k2 = dict_lookup d k2.
Proof.
  intros Hk.
  induction d as [|[k' v'] d IH]; cbn [dict_set dict_lookup].
  - now rewrite Hk.
  - destruct (pystr_eqb k' k) eqn:E; cbn [dict_lookup].
    + apply pystr_eqb_eq in E; subst k'. now rewrite Hk.
    + now rewrite IH.
Qed.

Lemma lstrip_all_space (s : pystr) : forallb isspace s = true -> lstrip s = [].
Proof.
  induction s as [|c s IH]; [reflexivity|].
  cbn [forallb lstrip]. intros H; apply andb_prop in H as [Hc Hs].
  rewrite Hc. auto.
Qed.

Lemma strip_all_space (s : pystr) : forallb isspace s = true -> strip s = [].
Proof.
  intros H. unfold strip, rstrip. now rewrite (lstrip_all_space s H).
Qed.

Lemma firstn_length_le5 {A} (l : list A) : (List.length (firstn 5 l) <= 5)%nat.
Proof. apply firstn_le_length. Qed.

Section SynonymsProperties.

Variable lower : pystr -> pystr.
Variable json_loads : pystr -> result json.

Local Abbreviation handler := (Synonyms.handler lower json_loads).
Local Abbreviation detect_language := (Synonyms.detect_language lower).
Local Abbreviation get_contextual_synonyms := (Synonyms.get_contextual_synonyms json_loads).
Local Abbreviation resolved_lang := (Synonyms.resolved_lang lower).
Local Abbreviation general_step := Synonyms.general_step.
Local Abbreviation contextual_step := (Synonyms.contextual_step json_loads).

Lemma synonyms_read_fields (ev : event) (d : dict) (s : pystr) :
  loads_body ev = Ok (JObj d) ->
  dict_get d (py "word") (JStr []) = JStr s ->
  Synonyms.read_fields lower ev =
  Ok (lower (strip s), dict_get d (py "context") (JStr []),
      dict_get d (py "lang") (JStr [])).
Proof.
  intros Hb Hw. unfold Synonyms.read_fields, Synonyms.normalize.
  rewrite Hb. cbn [bind get]. rewrite Hw. reflexivity.
Qed.

(** The 200 answer of a POST with a usable word and context. *)
Lemma synonyms_post_ok (w : Synonyms.world) (ev : event) (d : dict)
  (s word : pystr) (long : bool) :
  Synonyms.method_of ev = JStr (py "POST") ->
  loads_body ev = Ok (JObj d) ->
  dict_get d (py "word") (JStr []) = JStr s ->
  lower (strip s) = word -> word <> [] ->
  Synonyms.long_context (dict_get d (py "context") (JStr [])) = Ok long ->
  handler w ev =
  (Synonyms.ok_response word
     (resolved_lang word (dict_get d (py "lang") (JStr [])))
     (fst (general_step w word (resolved_lang word (dict_get d (py "lang") (JStr []))))
      ++ fst (contextual_step w word (dict_get d (py "context") (JStr []))
                (resolved_lang word (dict_get d (py "lang") (JStr []))) long)),
   snd (general_step w word (resolved_lang word (dict_get d (py "lang") (JStr []))))
   ++ snd (contextual_step w word (dict_get d (py "context") (JStr []))
             (resolved_lang word (dict_get d (py "lang") (JStr []))) long)).
Proof.
  intros Hm Hb Hw Hword Hne Hlong.
  unfold Synonyms.handler, Synonyms.handler_post.
  rewrite Hm. cbn [eq_str].
  change (pystr_eqb (py "POST") (py "OPTIONS")) with false.
  change (pystr_eqb (py "POST") (py "POST")) with true. cbv iota.
  rewrite (synonyms_read_fields ev d s Hb Hw), Hword.
  destruct word as [|c word']; [congruence|].
  fold (resolved_lang (c :: word') (dict_get d (py "lang") (JStr []))).
  set (lang := resolved_lang (c :: word') (dict_get d (py "lang") (JStr []))).
  rewrite Hlong.
  unfold Synonyms.general_step, Synonyms.contextual_step.
  destruct (eq_str lang (py "en"));
    [destruct (Synonyms.get_datamuse_synonyms w (c :: word') lang) as [hits sent1]|];
    (destruct long;
     [destruct (get_contextual_synonyms w (c :: word')
                  (dict_get d (py "context") (JStr [])) lang) as [ctxl sent2]|]);
    cbn [fst snd try_except]; now rewrite ?app_nil_r.
Qed.

Lemma datamuse_entry_shaped (h : Synonyms.hit) :
  datamuse_shaped (Synonyms.datamuse_entry h).
Proof. exists (Synonyms.hit_word h). reflexivity. Qed.




Lemma datamuse_trace (w : Synonyms.world) (word : pystr) (lang : json) :
  Forall (fun r => is_openai r = false)
    (snd (Synonyms.get_datamuse_synonyms w word lang)).
Proof.
  unfold Synonyms.get_datamuse_synonyms.
  destruct (eq_str lang (py "en")); [|constructor].
  destruct (Synonyms.quote_ok word); repeat constructor.
Qed.

Lemma general_step_facts (w : Synonyms.world) (word : pystr) (lang : json) :
  Forall datamuse_shaped (fst (general_step w word lang))
  /\ (List.length (fst (general_step w word lang)) <= 5)%nat
  /\ Forall (fun r => is_openai r = false) (snd (general_step w word lang)).
Proof.
  unfold Synonyms.general_step.
  destruct (eq_str lang (py "en")); cbn [fst snd].
  - split; [|split].
    + apply Forall_forall. intros e He. apply in_map_iff in He as [h [<- _]].
      apply datamuse_entry_shaped.
    + rewrite length_map. apply firstn_length_le5.
    + apply datamuse_trace.
  - split; [constructor | split; [cbn [List.length]; lia | constructor]].
Qed.

Lemma existsb_none (l : list Synonyms.request) :
  Forall (fun r => is_openai r = false) l -> existsb is_openai l = false.
Proof.
  induction 1 as [|r l Hr _ IH]; [reflexivity|].
  cbn [existsb]. now rewrite Hr, IH.
Qed.

(** A string context passes the test exactly when it is longer than ten
    characters. *)
Lemma long_context_str (cs : pystr) :
  Synonyms.long_context (JStr cs) = Ok (10 <? List.length cs).
Proof. destruct cs; reflexivity. Qed.

(** The contextual step on a string context: a request goes out exactly
    when the context is long and the credential is set. *)
Lemma contextual_step_str (w : Synonyms.world) (word cs : pystr) (lang : json) :
  existsb is_openai
    (snd (contextual_step w word (JStr cs) lang (10 <? List.length cs)))
  = (10 <? List.length cs) && has_credential w
  /\ ((10 <? List.length cs) && has_credential w = false ->
      contextual_step w word (JStr cs) lang (10 <? List.length cs) = ([], [])).
Proof.
  unfold Synonyms.contextual_step, Synonyms.get_contextual_synonyms,
    has_credential.
  destruct (10 <? List.length cs); [|split; reflexivity].
  destruct (Synonyms.OPENAI_API_KEY w) as [[|k key]|]; cbn [fst snd andb existsb];
    split; try reflexivity; discriminate.
Qed.

(** C4. A POST to the synonym handler whose word is empty once trimmed
    and lowercased gets the 400 response "Word is required"; so does a
    word made of whitespace only, and an absent word ([str.lower] maps
    the empty string to itself). *)
Theorem synonyms_empty_word_400 (w : Synonyms.world) (ev : event) (d : dict) (s : pystr) :
  Synonyms.method_of ev = JStr (py "POST") ->
  loads_body ev = Ok (JObj d) ->
  dict_get d (py "word") (JStr []) = JStr s ->
  (lower (strip s) = [] ->
   handler w ev = (error_response 400 "Word is required", []))
  /\ (lower [] = [] -> forallb isspace s = true ->
      handler w ev = (error_response 400 "Word is required", []))
  /\ (lower [] = [] -> dict_lookup d (py "word") = None ->
      handler w ev = (error_response 400 "Word is required", [])).
Proof.
  intros Hm Hb Hw.
  assert (Hempty : lower (strip s) = [] ->
                   handler w ev = (error_response 400 "Word is required", [])).
  { intros He.
    unfold Synonyms.handler, Synonyms.handler_post.
    rewrite Hm. cbn [eq_str].
    change (pystr_eqb (py "POST") (py "OPTIONS")) with false.
    change (pystr_eqb (py "POST") (py "POST")) with true. cbv iota.
    rewrite (synonyms_read_fields ev d s Hb Hw), He. reflexivity. }
  split; [exact Hempty|]. split.
  - intros Hl Hs. apply Hempty. now rewrite (strip_all_space s Hs).
  - intros Hl Hn. apply Hempty.
    unfold dict_get in Hw. rewrite Hn in Hw. inversion Hw; subst s.
    exact Hl.
Qed.



Lemma contextual_trace (w : Synonyms.world) (word : pystr) (context lang : json)
  (long : bool) :
  Forall (fun r => is_openai r = true)
    (snd (contextual_step w word context lang long)).
Proof.
  unfold Synonyms.contextual_step, Synonyms.get_contextual_synonyms.
  destruct long; [|constructor].
  destruct (Synonyms.OPENAI_API_KEY w) as [[|k key]|]; try constructor.
  destruct (Synonyms.slice200 context); repeat constructor.
Qed.

Lemma datamuse_shaped_not_contextual (e : json) :
  datamuse_shaped e -> ~ has_source e "contextual".
Proof.
  intros [word ->] [d [Hd [_ Hs]]].
  inversion Hd; subst d. discriminate Hs.
Qed.

(** C6. The datamuse step of a 200 answer contributes at most five
    entries, each of the shape [{word, context: 'general synonym',
    source: 'datamuse'}], taken from the first five results when the
    language is [en]; for any other language [get_datamuse_synonyms]
    returns [[]] and issues no request, and the handler contributes
    nothing and sends nothing to that service; with no context in the
    request every synonym of the answer is such an entry. *)
Theorem datamuse_step_entries (w : Synonyms.world) (ev : event) (d : dict)
  (s word : pystr) (long : bool) :
  Synonyms.method_of ev = JStr (py "POST") ->
  loads_body ev = Ok (JObj d) ->
  dict_get d (py "word") (JStr []) = JStr s ->
  lower (strip s) = word -> word <> [] ->
  Synonyms.long_context (dict_get d (py "context") (JStr [])) = Ok long ->
  exists general contextual : list json,
    field (fst (handler w ev)) (py "synonyms") = Some (JArr (general ++ contextual))
    /\ (List.length general <= 5)%nat
    /\ Forall datamuse_shaped general
    /\ (eq_str (resolved_lang word (dict_get d (py "lang") (JStr []))) (py "en") = true ->
        general =
        map Synonyms.datamuse_entry
          (firstn 5 (fst (Synonyms.get_datamuse_synonyms w word
                            (resolved_lang word (dict_get d (py "lang") (JStr [])))))))
    /\ (eq_str (resolved_lang word (dict_get d (py "lang") (JStr []))) (py "en") = false ->
        general = []
        /\ Forall (fun r => is_openai r = true) (snd (handler w ev)))
    /\ (forall (word' : pystr) (lang' : json),
          eq_str lang' (py "en") = false ->
          Synonyms.get_datamuse_synonyms w word' lang' = ([], []))
    /\ (dict_lookup d (py "context") = None ->
        contextual = [] /\ Forall datamuse_shaped (general ++ contextual)).
Proof.
  intros Hm Hb Hw Hword Hne Hlong.
  rewrite (synonyms_post_ok w ev d s word long Hm Hb Hw Hword Hne Hlong).
  set (lang := resolved_lang word (dict_get d (py "lang") (JStr []))).
  set (context := dict_get d (py "context") (JStr [])) in *.
  destruct (general_step_facts w word lang) as [Hshape [Hlen Htrace]].
  exists (fst (general_step w word lang)),
         (fst (contextual_step w word context lang long)).
  cbn [fst snd].
  split; [reflexivity|]. split; [exact Hlen|]. split; [exact Hshape|].
  split; [|split; [|split]].
  - intros Hen. unfold Synonyms.general_step. now rewrite Hen.
  - intros Hen. unfold Synonyms.general_step. rewrite Hen. cbn [fst snd app].
    split; [reflexivity | apply contextual_trace].
  - intros word' lang' Hen. unfold Synonyms.get_datamuse_synonyms.
    now rewrite Hen.
  - intros Hn.
    assert (Hl : long = false).
    { subst context. unfold dict_get in Hlong. rewrite Hn in Hlong.
      cbn in Hlong. now inversion Hlong. }
    subst long. cbn [Synonyms.contextual_step fst]. split; [reflexivity|].
    now rewrite app_nil_r.
Qed.

(** C7. For a request whose context is a string (or absent), the
    language model is called exactly when the context is longer than ten
    characters and the credential is set; otherwise the answer is the one
    the datamuse step alone gives, with no entry whose source is
    [contextual]. *)
Theorem contextual_lookup_gate (w : Synonyms.world) (ev : event) (d : dict)
  (s word cs : pystr) :
  Synonyms.method_of ev = JStr (py "POST") ->
  loads_body ev = Ok (JObj d) ->
  dict_get d (py "word") (JStr []) = JStr s ->
  lower (strip s) = word -> word <> [] ->
  dict_get d (py "context") (JStr []) = JStr cs ->
  (existsb is_openai (snd (handler w ev)) = true <->
   (10 < List.length cs)%nat /\ has_credential w = true)
  /\ (~ ((10 < List.length cs)%nat /\ has_credential w = true) ->
      handler w ev =
      (Synonyms.ok_response word
         (resolved_lang word (dict_get d (py "lang") (JStr [])))
         (fst (general_step w word
                 (resolved_lang word (dict_get d (py "lang") (JStr []))))),
       snd (general_step w word
              (resolved_lang word (dict_get d (py "lang") (JStr [])))))
      /\ Forall (fun e => ~ has_source e "contextual")
           (fst (general_step w word
                   (resolved_lang word (dict_get d (py "lang") (JStr [])))))).
Proof.
  intros Hm Hb Hw Hword Hne Hc.
  assert (Hlong : Synonyms.long_context (dict_get d (py "context") (JStr []))
                  = Ok (10 <? List.length cs)).
  { rewrite Hc. apply long_context_str. }
  rewrite (synonyms_post_ok w ev d s word _ Hm Hb Hw Hword Hne Hlong).
  rewrite Hc.
  set (lang := resolved_lang word (dict_get d (py "lang") (JStr []))).
  destruct (general_step_facts w word lang) as [Hshape [_ Htrace]].
  destruct (contextual_step_str w word cs lang) as [Hsent Hnone].
  cbn [fst snd].
  assert (Hgate : (10 <? List.length cs) && has_credential w = true <->
                  (10 < List.length cs)%nat /\ has_credential w = true).
  { rewrite andb_true_iff, Nat.ltb_lt. reflexivity. }
  split.
  - rewrite existsb_app, (existsb_none _ Htrace), Hsent. cbn [orb].
    exact Hgate.
  - intros Hno.
    assert (Hoff : (10 <? List.length cs) && has_credential w = false).
    { destruct ((10 <? List.length cs) && has_credential w); [|reflexivity].
      elim Hno. now apply Hgate. }
    rewrite (Hnone Hoff). cbn [fst snd]. rewrite !app_nil_r.
    split; [reflexivity|].
    eapply Forall_impl; [|exact Hshape].
    apply datamuse_shaped_not_contextual.
Qed.

(** C8. When the call to the synonym API fails, whatever the exception,
    [get_datamuse_synonyms] returns the empty list, and with no
    contextual result the handler still answers 200 with [synonyms: []]
    and [count: 0]. *)
Theorem datamuse_failure_is_swallowed (w : Synonyms.world) (ev : event) (d : dict)
  (s word : pystr) (long : bool) (e : exn) :
  Synonyms.method_of ev = JStr (py "POST") ->
  loads_body ev = Ok (JObj d) ->
  dict_get d (py "word") (JStr []) = JStr s ->
  lower (strip s) = word -> word <> [] ->
  Synonyms.long_context (dict_get d (py "context") (JStr [])) = Ok long ->
  Synonyms.datamuse w word = Raise e ->
  fst (contextual_step w word (dict_get d (py "context") (JStr []))
         (resolved_lang word (dict_get d (py "lang") (JStr []))) long) = [] ->
  (forall lang' : json, fst (Synonyms.get_datamuse_synonyms w word lang') = [])
  /\ fst (handler w ev)
     = Synonyms.ok_response word
         (resolved_lang word (dict_get d (py "lang") (JStr []))) []
  /\ statusCode (fst (handler w ev)) = 200%Z
  /\ field (fst (handler w ev)) (py "synonyms") = Some (JArr [])
  /\ field (fst (handler w ev)) (py "count") = Some (JInt 0).
Proof.
  intros Hm Hb Hw Hword Hne Hlong Hfail Hctx.
  assert (Hnil : forall lang' : json,
             fst (Synonyms.get_datamuse_synonyms w word lang') = []).
  { intros lang'. unfold Synonyms.get_datamuse_synonyms.
    destruct (eq_str lang' (py "en")); [|reflexivity].
    destruct (Synonyms.quote_ok word); [|reflexivity].
    now rewrite Hfail. }
  split; [exact Hnil|].
  rewrite (synonyms_post_ok w ev d s word long Hm Hb Hw Hword Hne Hlong).
  cbn [fst]. rewrite Hctx.
  assert (Hgen : fst (general_step w word
                        (resolved_lang word (dict_get d (py "lang") (JStr [])))) = []).
  { unfold Synonyms.general_step.
    destruct (eq_str _ (py "en")); [|reflexivity].
    cbn [fst]. now rewrite Hnil. }
  rewrite Hgen. repeat split.
Qed.



End SynonymsProperties.

(** Sample runs of the synonym handler. *)

Example happy_in_context_run :
  Synonyms.handler ascii_lower sample_loads model_online happy_in_context
  = (Synonyms.ok_response (py "happy") (JStr (py "en"))
       [JObj [(py "word", JStr (py "joyful"));
              (py "source", JStr (py "contextual"))]],
     [Synonyms.DatamuseGet (py "happy");
      Synonyms.OpenAIPost (py "happy") (JStr (py "a happy day at the sea")) false]).
Proof. vm_compute. reflexivity. Qed.

Example happy_en_run :
  Synonyms.handler ascii_lower sample_loads thesaurus_online happy_en
  = (Synonyms.ok_response (py "happy") (JStr (py "en"))
       [JObj [(py "word", JStr (py "glad"));
              (py "context", JStr (py "general synonym"));
              (py "source", JStr (py "datamuse"))];
        JObj [(py "word", JStr (py "content"));
              (py "context", JStr (py "general synonym"));
              (py "source", JStr (py "datamuse"))]],
     [Synonyms.DatamuseGet (py "happy")]).
Proof. vm_compute. reflexivity. Qed.

Lemma synonyms_empty_word_400_blank :
  Synonyms.handler ascii_lower sample_loads offline blank_word
  = (error_response 400 "Word is required", []).
Proof.
  apply (proj1 (synonyms_empty_word_400 ascii_lower sample_loads offline blank_word
                  [(py "word", JStr (py "   "))] (py "   ")
                  eq_refl eq_refl eq_refl)).
  vm_compute. reflexivity.
Defined.


Lemma datamuse_step_entries_happy :
  exists general contextual : list json,
    field (fst (Synonyms.handler ascii_lower sample_loads thesaurus_online happy_en))
      (py "synonyms") = Some (JArr (general ++ contextual))
    /\ (List.length general <= 5)%nat
    /\ Forall datamuse_shaped general.
Proof.
  assert (Hne : py "happy" <> []) by (vm_compute; discriminate).
  destruct (datamuse_step_entries ascii_lower sample_loads thesaurus_online happy_en
              [(py "word", JStr (py " Happy")); (py "lang", JStr (py "en"))]
              (py " Happy") (py "happy") false
              eq_refl eq_refl eq_refl eq_refl Hne eq_refl)
    as [general [contextual [H1 [H2 [H3 _]]]]].
  exists general, contextual. auto.
Defined.

Lemma contextual_lookup_gate_happy :
  existsb is_openai
    (snd (Synonyms.handler ascii_lower sample_loads model_online happy_in_context))
  = true.
Proof.
  assert (Hne : py "happy" <> []) by (vm_compute; discriminate).
  apply (proj1 (contextual_lookup_gate ascii_lower sample_loads model_online
                  happy_in_context
                  [(py "word", JStr (py "happy"));
                   (py "context", JStr (py "a happy day at the sea"))]
                  (py "happy") (py "happy") (py "a happy day at the sea")
                  eq_refl eq_refl eq_refl eq_refl Hne eq_refl)).
  split; [vm_compute; lia | reflexivity].
Defined.

Lemma datamuse_failure_is_swallowed_offline :
  statusCode (fst (Synonyms.handler ascii_lower sample_loads offline happy_en)) = 200%Z
  /\ field (fst (Synonyms.handler ascii_lower sample_loads offline happy_en))
       (py "synonyms") = Some (JArr []).
Proof.
  assert (Hne : py "happy" <> []) by (vm_compute; discriminate).
  destruct (datamuse_failure_is_swallowed ascii_lower sample_loads offline happy_en
              [(py "word", JStr (py " Happy")); (py "lang", JStr (py "en"))]
              (py " Happy") (py "happy") false URLError
              eq_refl eq_refl eq_refl eq_refl Hne eq_refl eq_refl eq_refl)
    as [_ [_ [H200 [Hsyn _]]]].
  split; assumption.
Defined.


(** * Further properties of the export handler *)

Lemma utf8_char_encodable (c : N) :
  encodable c = true ->
  exists bs : bytes,
    utf8_char c = Some bs /\ (1 <= List.length bs <= 4)%nat.
Proof.
  unfold encodable, utf8_char.
  split_compare; intros Henc; try discriminate Henc; try lia;
    eexists; (split; [reflexivity | cbn [List.length]; lia]).
Qed.

Lemma utf8_char_not_encodable (c : N) :
  encodable c = false -> utf8_char c = None.
Proof.
  unfold encodable, utf8_char.
  split_compare; intros Henc; try discriminate Henc; try reflexivity; lia.
Qed.

Lemma encode_utf8_app (a b : pystr) :
  encode_utf8 (a ++ b) =
  (x <- encode_utf8 a ;; y <- encode_utf8 b ;; Ok (x ++ y)).
Proof.
  induction a as [|c a IH]; cbn [app encode_utf8 bind].
  - destruct (encode_utf8 b); reflexivity.
  - destruct (utf8_char c) as [bs|]; [|reflexivity].
    rewrite IH.
    destruct (encode_utf8 a) as [x|e]; [|reflexivity].
    cbn [bind].
    destruct (encode_utf8 b) as [y|e]; [|reflexivity].
    cbn [bind]. now rewrite app_assoc.
Qed.

Lemma encode_utf8_ok (s : pystr) :
  forallb encodable s = true ->
  exists bs : bytes,
    encode_utf8 s = Ok bs
    /\ (List.length s <= List.length bs <= 4 * List.length s)%nat.
Proof.
  induction s as [|c s IH]; cbn [forallb].
  - intros _. exists []. split; [reflexivity | cbn; lia].
  - intros H. apply andb_prop in H as [Hc Hs].
    destruct (utf8_char_encodable c Hc) as [bc [Ec Hlc]].
    destruct (IH Hs) as [bs [Es Hls]].
    exists (bc ++ bs). cbn [encode_utf8]. rewrite Ec, Es. cbn [bind].
    split; [reflexivity|]. rewrite length_app. cbn [List.length]. lia.
Qed.

Lemma encode_utf8_fail (s : pystr) :
  forallb encodable s = false -> encode_utf8 s = Raise UnicodeEncodeError.
Proof.
  induction s as [|c s IH]; cbn [forallb]; [discriminate|].
  intros H. cbn [encode_utf8].
  destruct (encodable c) eqn:Ec.
  - destruct (utf8_char_encodable c Ec) as [bc [-> _]].
    cbn [andb] in H. now rewrite (IH H).
  - now rewrite (utf8_char_not_encodable c Ec).
Qed.

Lemma encode_utf8_ok_inv (s : pystr) (bs : bytes) :
  encode_utf8 s = Ok bs ->
  forallb encodable s = true
  /\ (List.length s <= List.length bs <= 4 * List.length s)%nat.
Proof.
  intros E. destruct (forallb encodable s) eqn:F.
  - destruct (encode_utf8_ok s F) as [bs' [E' Hl]].
    rewrite E in E'. inversion E'; subst bs'. now split.
  - rewrite (encode_utf8_fail s F) in E. discriminate E.
Qed.

Section ExporterMore.

Variable lower : pystr -> pystr.
Variable str_of : json -> pystr.

Local Abbreviation handler := (Exporter.handler lower str_of).
Local Abbreviation create_pdf := (Exporter.create_pdf str_of).
Local Abbreviation create_docx := (Exporter.create_docx str_of).
Local Abbreviation fallback := (Exporter.create_simple_pdf_fallback str_of).
Local Abbreviation flat_text w text reps :=
  (Exporter.spec_flat_text (Exporter.generated_at w)
     (Exporter.format_value str_of text)
     (map (Exporter.spec_replacement_text str_of) reps)).

(** On a list of replacement records the fallback encodes the flat text. *)
Lemma fallback_on_records (w : Exporter.world) (text : json) (reps : list dict) :
  fallback w text (JArr (map JObj reps)) = encode_utf8 (flat_text w text reps).
Proof.
  unfold Exporter.create_simple_pdf_fallback, Exporter.spec_flat_text,
    Exporter.fallback_head, Exporter.history_title.
  destruct reps as [|r reps].
  - cbn [map truthy bind]. now rewrite !app_nil_r, <- !app_assoc.
  - cbn [truthy map iterate bind].
    change (JObj r :: map JObj reps) with (map JObj (r :: reps)).
    rewrite history_lines_dicts. cbn [bind map].
    now rewrite <- !app_assoc.
Qed.

(** What the [try] block of the export handler can end in. *)
Lemma export_post_cases (w : Exporter.world) (ev : event) :
  (exists e, Exporter.handler_post lower str_of w ev = Raise e)
  \/ Exporter.handler_post lower str_of w ev
     = Ok (error_response 400 "Text is required")
  \/ Exporter.handler_post lower str_of w ev
     = Ok (error_response 400 "Invalid format. Use pdf or docx")
  \/ (exists file_bytes,
        Exporter.handler_post lower str_of w ev
        = Ok (Exporter.file_response (Exporter.filename w ".pdf") file_bytes
                Exporter.pdf_type))
  \/ (exists file_bytes,
        Exporter.handler_post lower str_of w ev
        = Ok (Exporter.file_response (Exporter.filename w ".docx") file_bytes
                Exporter.docx_type)).
Proof.
  unfold Exporter.handler_post.
  destruct (loads_body ev) as [body_data|e]; [|left; now exists e].
  destruct body_data as [| | | | |l|d];
    try (left; now exists AttributeError).
  cbn [bind get].
  destruct (dict_get d (py "format") (JStr (py "pdf"))) as [| | | |f| |];
    try (left; now exists AttributeError).
  cbn [bind Exporter.lower_method].
  destruct (truthy (dict_get d (py "text") (JStr []))); cbn [negb];
    [|right; left; reflexivity].
  destruct (pystr_eqb (lower f) (py "pdf")).
  - destruct (create_pdf w _ _) as [file_bytes|e]; [|left; now exists e].
    right; right; right; left. now exists file_bytes.
  - destruct (pystr_eqb (lower f) (py "docx")); [|right; right; left; reflexivity].
    destruct (create_docx w _ _) as [file_bytes|e]; [|left; now exists e].
    right; right; right; right. now exists file_bytes.
Qed.

(** X1. A POST whose body cannot be parsed, or parses to something that
    is not a JSON object (a list, a string, a number, null), is answered
    with 500 carrying the exception, never with 400. *)
Theorem export_body_must_be_object (w : Exporter.world) (ev : event) :
  Exporter.method_of ev = JStr (py "POST") ->
  (forall e, loads_body ev = Raise e ->
             handler w ev = json_response 500 (BodyError e))
  /\ (forall v, loads_body ev = Ok v -> (forall d, v <> JObj d) ->
                handler w ev = json_response 500 (BodyError AttributeError)).
Proof.
  intros Hm. unfold Exporter.handler, Exporter.handler_post. rewrite Hm.
  split.
  - intros e ->. reflexivity.
  - intros v -> Hv. destruct v; try reflexivity. now elim (Hv d).
Qed.

(** X2. The build routines fall back on [ImportError] only: any other
    exception of the rich renderer leaves [create_pdf] and [create_docx]
    as it is, and the handler answers the request with 500 carrying that
    exception. *)
Theorem renderer_errors_propagate (w : Exporter.world) (ev : event) (d : dict)
  (f : pystr) (e : exn) :
  Exporter.method_of ev = JStr (py "POST") ->
  loads_body ev = Ok (JObj d) ->
  truthy (dict_get d (py "text") (JStr [])) = true ->
  dict_get d (py "format") (JStr (py "pdf")) = JStr f ->
  e <> ImportError ->
  (lower f = py "pdf" ->
   Exporter.reportlab w (dict_get d (py "text") (JStr []))
     (dict_get d (py "replacements") (JArr [])) = Raise e ->
   create_pdf w (dict_get d (py "text") (JStr []))
     (dict_get d (py "replacements") (JArr [])) = Raise e
   /\ handler w ev = json_response 500 (BodyError e))
  /\ (lower f = py "docx" ->
      Exporter.python_docx w (dict_get d (py "text") (JStr []))
        (dict_get d (py "replacements") (JArr [])) = Raise e ->
      create_docx w (dict_get d (py "text") (JStr []))
        (dict_get d (py "replacements") (JArr [])) = Raise e
      /\ handler w ev = json_response 500 (BodyError e)).
Proof.
  intros Hm Hb Ht Hf He.
  rewrite (export_post_dict lower str_of w ev d f Hm Hb Hf). cbv zeta.
  rewrite Ht. cbn [negb].
  split.
  - intros -> Hr.
    assert (Hc : create_pdf w (dict_get d (py "text") (JStr []))
                   (dict_get d (py "replacements") (JArr [])) = Raise e).
    { unfold Exporter.create_pdf. rewrite Hr. destruct e; congruence. }
    split; [exact Hc|]. rewrite Hc. reflexivity.
  - intros -> Hr.
    assert (Hc : create_docx w (dict_get d (py "text") (JStr []))
                   (dict_get d (py "replacements") (JArr [])) = Raise e).
    { unfold Exporter.create_docx. rewrite Hr. destruct e; congruence. }
    split; [exact Hc|]. rewrite Hc. reflexivity.
Qed.

(** X3. On a list of replacement records the fallback encoder fails
    exactly when the text it writes holds a code point UTF-8 cannot
    encode (a lone surrogate), and then with [UnicodeEncodeError];
    otherwise it returns between one and four bytes per character. *)
Theorem fallback_fails_on_surrogates_only (w : Exporter.world) (text replacements : json)
  (reps : list dict) :
  replacements = JArr (map JObj reps) ->
  (forallb encodable (flat_text w text reps) = true ->
   exists file_bytes : bytes,
     fallback w text replacements = Ok file_bytes
     /\ (List.length (flat_text w text reps) <= List.length file_bytes
         <= 4 * List.length (flat_text w text reps))%nat)
  /\ (forallb encodable (flat_text w text reps) = false ->
      fallback w text replacements = Raise UnicodeEncodeError).
Proof.
  intros ->. rewrite fallback_on_records. split.
  - apply encode_utf8_ok.
  - apply encode_utf8_fail.
Qed.

End ExporterMore.

Lemma flat_text_split (generated body : pystr) (history : list pystr) :
  Exporter.spec_flat_text generated body history =
  Exporter.spec_flat_text generated body []
    ++ match history with
       | [] => []
       | _ :: _ =>
           (Exporter.nl ++ py "REPLACEMENT HISTORY:" ++ Exporter.nl)
             ++ List.concat history
       end.
Proof.
  unfold Exporter.spec_flat_text. rewrite app_nil_r.
  now rewrite <- !app_assoc.
Qed.

Lemma history_lines_not_records (str_of : json -> pystr) (l : list json) :
  Exists (fun v => forall d, v <> JObj d) l ->
  Exporter.history_lines str_of l = Raise AttributeError.
Proof.
  induction l as [|v l IH]; intros H; [inversion H|].
  cbn [Exporter.history_lines].
  destruct v; try reflexivity.
  inversion H as [? ? Hv | ? ? Hl]; subst.
  - now elim (Hv d).
  - unfold Exporter.history_line. cbn [get bind]. now rewrite (IH Hl).
Qed.

Lemma b64_char_ascii (i : N) : (b64_char i < 128)%N.
Proof. unfold b64_char. split_compare; lia. Qed.

Lemma b64encode_shape_upto (n : nat) :
  forall bs : bytes,
    (List.length bs <= n)%nat ->
    List.length (b64encode bs) = (4 * ((List.length bs + 2) / 3))%nat
    /\ Forall (fun c => (c < 128)%N) (b64encode bs).
Proof.
  induction n as [|n IH]; intros bs Hlen.
  - destruct bs; [split; [reflexivity | constructor] | simpl in Hlen; lia].
  - destruct bs as [|a [|b [|c rest]]].
    + split; [reflexivity | constructor].
    + split; [reflexivity|].
      cbn [b64encode]; cbv zeta.
      repeat constructor; try apply b64_char_ascii; reflexivity.
    + split; [reflexivity|].
      cbn [b64encode]; cbv zeta.
      repeat constructor; try apply b64_char_ascii; reflexivity.
    + destruct (IH rest) as [Hl Ha]; [simpl in Hlen; lia|].
      cbn [b64encode]; cbv zeta. split.
      * cbn [List.length]. rewrite Hl.
        replace (S (S (S (List.length rest))) + 2)%nat
          with ((List.length rest + 2) + 1 * 3)%nat by lia.
        rewrite Nat.div_add by discriminate. lia.
      * repeat (constructor; [apply b64_char_ascii|]). exact Ha.
Qed.

Section ExporterFiles.

Variable lower : pystr -> pystr.
Variable str_of : json -> pystr.

Local Abbreviation handler := (Exporter.handler lower str_of).
Local Abbreviation fallback := (Exporter.create_simple_pdf_fallback str_of).

(** X4. In the fallback encoding a replacement history is only
    appended: the bytes written for an empty list are a proper prefix of
    the bytes written, for the same text and time, with replacement
    records. *)
Theorem fallback_history_is_appended (w : Exporter.world) (text : json)
  (reps : list dict) (file_bytes : bytes) :
  reps <> [] ->
  fallback w text (JArr (map JObj reps)) = Ok file_bytes ->
  exists head tail : bytes,
    fallback w text (JArr []) = Ok head
    /\ file_bytes = head ++ tail
    /\ (List.length head < List.length file_bytes)%nat.
Proof.
  intros Hne Hok.
  change (JArr []) with (JArr (map JObj [])).
  rewrite (fallback_on_records str_of) in *.
  rewrite flat_text_split in Hok. rewrite encode_utf8_app in Hok.
  cbn [map] in *.
  destruct (encode_utf8 (Exporter.spec_flat_text _ _ [])) as [head|e];
    [|discriminate Hok].
  cbn [bind] in Hok.
  destruct reps as [|r reps]; [congruence|]. cbn [map] in Hok.
  destruct (encode_utf8 _) as [tail|e] eqn:Et; [|discriminate Hok].
  cbn [bind] in Hok. inversion Hok; subst file_bytes.
  exists head, tail. split; [reflexivity|]. split; [reflexivity|].
  destruct (encode_utf8_ok_inv _ _ Et) as [_ [Hl _]].
  rewrite !length_app in Hl. rewrite length_app.
  unfold Exporter.nl in Hl. cbn [List.length] in Hl. lia.
Qed.

(** X5. The fallback encoder expects every replacement to be a record:
    a list holding anything else (a string, a number, a list) makes it
    raise [AttributeError], whatever the other elements are. *)
Theorem fallback_needs_replacement_records (w : Exporter.world) (text : json)
  (l : list json) :
  Exists (fun v => forall d, v <> JObj d) l ->
  fallback w text (JArr l) = Raise AttributeError.
Proof.
  intros H. unfold Exporter.create_simple_pdf_fallback.
  destruct l as [|v l]; [inversion H|].
  cbn [truthy iterate bind].
  now rewrite (history_lines_not_records str_of (v :: l) H).
Qed.

(** X6. Every response of the export handler has status 200, 400, 405 or
    500, is not marked base64-encoded, and carries the header
    [Access-Control-Allow-Origin: *]. *)
Theorem export_response_shape (w : Exporter.world) (ev : event) :
  (statusCode (handler w ev) = 200%Z \/ statusCode (handler w ev) = 400%Z
   \/ statusCode (handler w ev) = 405%Z \/ statusCode (handler w ev) = 500%Z)
  /\ isBase64Encoded (handler w ev) = false
  /\ In ("Access-Control-Allow-Origin", "*")%string (headers (handler w ev)).
Proof.
  unfold Exporter.handler.
  destruct (eq_str (Exporter.method_of ev) (py "OPTIONS")).
  { cbn. auto. }
  destruct (eq_str (Exporter.method_of ev) (py "POST")).
  2: { cbn. auto 6. }
  destruct (export_post_cases lower str_of w ev)
    as [[e ->] | [-> | [-> | [[b ->] | [b ->]]]]]; cbn; auto 6.
Qed.

(** X7. In a 200 response that carries a file the name and the content
    type go together: [synapse-export-<stamp>.pdf] with
    [application/pdf], or [synapse-export-<stamp>.docx] with the
    wordprocessingml type. *)
Theorem export_filename_matches_type (w : Exporter.world) (ev : event) :
  statusCode (handler w ev) = 200%Z ->
  handler w ev = Exporter.options_response
  \/ (field (handler w ev) (py "filename")
      = Some (JStr (py "synapse-export-" ++ Exporter.filename_stamp w ++ py ".pdf"))
      /\ field (handler w ev) (py "contentType") = Some (JStr (py "application/pdf")))
  \/ (field (handler w ev) (py "filename")
      = Some (JStr (py "synapse-export-" ++ Exporter.filename_stamp w ++ py ".docx"))
      /\ field (handler w ev) (py "contentType")
         = Some (JStr (py "application/vnd.openxmlformats-officedocument.wordprocessingml.document"))).
Proof.
  unfold Exporter.handler.
  destruct (eq_str (Exporter.method_of ev) (py "OPTIONS")); [now left|].
  destruct (eq_str (Exporter.method_of ev) (py "POST")); [|discriminate].
  destruct (export_post_cases lower str_of w ev)
    as [[e ->] | [-> | [-> | [[b ->] | [b ->]]]]]; try discriminate; intros _.
  - right; left. split; reflexivity.
  - right; right. split; reflexivity.
Qed.

End ExporterFiles.

(** X8. The [content] text has four characters for every three bytes of
    the file, the last group padded, and all its characters are ASCII
    (so the [.decode('utf-8')] applied to it cannot fail). *)
Theorem b64encode_length_and_ascii (bs : bytes) :
  List.length (b64encode bs) = (4 * ((List.length bs + 2) / 3))%nat
  /\ Forall (fun c => (c < 128)%N) (b64encode bs).
Proof. apply (b64encode_shape_upto (List.length bs)); lia. Qed.

(** X9. Two files with the same [content] text are the same file. *)
Theorem b64encode_injective (a b : bytes) :
  b64encode a = b64encode b -> a = b.
Proof.
  intros H.
  assert (E : b64decode (b64encode a) = b64decode (b64encode b)) by now rewrite H.
  rewrite !b64_roundtrip in E. now inversion E.
Qed.

(** * Further properties of the synonym handler *)

Lemma count_app (p : N -> bool) (a b : pystr) :
  count p (a ++ b) = (count p a + count p b)%nat.
Proof.
  induction a as [|c a IH]; cbn [app count]; [reflexivity|].
  rewrite IH. lia.
Qed.

Lemma count_permutation (p : N -> bool) (a b : pystr) :
  Permutation a b -> count p a = count p b.
Proof.
  induction 1; cbn [count]; lia.
Qed.

Lemma datamuse_hit_ok_inv (v : json) (h : Synonyms.hit) :
  Synonyms.datamuse_hit v = Ok h -> word_dict v = true.
Proof.
  unfold Synonyms.datamuse_hit, word_dict, dict_mem.
  destruct v; cbn [subscript bind]; try discriminate.
  destruct (dict_lookup d (py "word")); [reflexivity | discriminate].
Qed.

Lemma datamuse_hits_bad (items : list json) :
  Exists (fun v => word_dict v = false) items ->
  exists e, Synonyms.datamuse_hits items = Raise e.
Proof.
  induction items as [|v items IH]; intros H; [inversion H|].
  cbn [Synonyms.datamuse_hits].
  destruct (Synonyms.datamuse_hit v) as [h|e] eqn:E; [|now exists e].
  cbn [bind].
  inversion H as [? ? Hv | ? ? Hl]; subst.
  - rewrite (datamuse_hit_ok_inv v h E) in Hv. discriminate Hv.
  - destruct (IH Hl) as [e ->]. now exists e.
Qed.

Lemma datamuse_hits_records (ds : list dict) :
  Forall (fun d => dict_mem d (py "word") = true) ds ->
  Synonyms.datamuse_hits (map JObj ds) = Ok (map hit_of ds).
Proof.
  induction 1 as [|d ds Hd _ IH]; [reflexivity|].
  cbn [map Synonyms.datamuse_hits]. rewrite IH.
  unfold Synonyms.datamuse_hit, hit_of, dict_get, dict_mem in *.
  cbn [subscript get bind].
  destruct (dict_lookup d (py "word")); [reflexivity | discriminate Hd].
Qed.

(** X10. [get_datamuse_synonyms] is all or nothing: for English and a
    reply that is a list of records each holding a ['word'], it returns
    one hit per record, in order, with score 0 where the record has
    none; a single item that is not such a record leaves the whole
    result empty. *)
Theorem datamuse_all_or_nothing (w : Synonyms.world) (word : pystr) (items : list json) :
  Synonyms.datamuse w word = Ok (JArr items) ->
  Synonyms.quote_ok word = true ->
  (forall ds : list dict,
      items = map JObj ds ->
      Forall (fun d => dict_mem d (py "word") = true) ds ->
      Synonyms.get_datamuse_synonyms w word (JStr (py "en"))
      = (map hit_of ds, [Synonyms.DatamuseGet word]))
  /\ (Exists (fun v => word_dict v = false) items ->
      Synonyms.get_datamuse_synonyms w word (JStr (py "en"))
      = ([], [Synonyms.DatamuseGet word])).
Proof.
  intros Hreply Hq. unfold Synonyms.get_datamuse_synonyms.
  change (eq_str (JStr (py "en")) (py "en")) with true. cbv iota.
  rewrite Hq, Hreply. cbn [bind iterate]. split.
  - intros ds -> Hds. now rewrite (datamuse_hits_records ds Hds).
  - intros Hbad. destruct (datamuse_hits_bad items Hbad) as [e ->].
    reflexivity.
Qed.

Lemma split_go_nonempty (sep : pystr) (s : pystr) :
  forall (skip : nat) (cur : pystr), split_go sep skip cur s <> [].
Proof.
  induction s as [|c s IH]; intros skip cur; cbn [split_go]; [discriminate|].
  destruct skip; [|apply IH].
  destruct (startswith (c :: s) sep); [discriminate | apply IH].
Qed.

Lemma split_go_plain (body : pystr) :
  Forall (fun c => c <> backtick) body ->
  forall cur : pystr, split_go fence 0 cur body = [rev cur ++ body].
Proof.
  induction 1 as [|c body Hc _ IH]; intros cur; cbn [split_go].
  - now rewrite app_nil_r.
  - change fence with [backtick; backtick; backtick]. cbn [startswith].
    rewrite (proj2 (N.eqb_neq c backtick) Hc). cbn [andb].
    change [backtick; backtick; backtick] with fence.
    rewrite IH. cbn [rev]. now rewrite <- app_assoc.
Qed.

Lemma startswith_nil (s : pystr) : startswith s [] = true.
Proof. destruct s; reflexivity. Qed.

Lemma startswith_app (p s : pystr) : startswith (p ++ s) p = true.
Proof.
  induction p as [|c p IH]; cbn [app]; [apply startswith_nil|].
  cbn [startswith]. now rewrite N.eqb_refl, IH.
Qed.

Lemma startswith_inv (p s : pystr) :
  startswith s p = true -> exists rest, s = p ++ rest.
Proof.
  revert s. induction p as [|c p IH]; intros s H.
  - now exists s.
  - destruct s as [|x s]; [discriminate H|].
    cbn [startswith] in H. apply andb_prop in H as [Hx Hs].
    apply N.eqb_eq in Hx; subst x.
    destruct (IH s Hs) as [rest ->]. now exists rest.
Qed.

Lemma split_go_fence_head (rest cur : pystr) :
  split_go fence 0 cur (fence ++ rest) = rev cur :: split_go fence 0 [] rest.
Proof.
  pose proof (startswith_app fence rest) as E.
  change fence with [backtick; backtick; backtick] in *.
  cbn [app] in *. cbn [split_go]. rewrite E.
  cbn [List.length Nat.sub split_go]. reflexivity.
Qed.

Lemma split_go_fenced (body rest : pystr) :
  Forall (fun c => c <> backtick) body ->
  forall cur : pystr,
    split_go fence 0 cur (body ++ fence ++ rest)
    = (rev cur ++ body) :: split_go fence 0 [] rest.
Proof.
  induction 1 as [|c body Hc _ IH]; intros cur.
  - rewrite app_nil_r. apply split_go_fence_head.
  - cbn [app split_go].
    change fence with [backtick; backtick; backtick]. cbn [startswith].
    rewrite (proj2 (N.eqb_neq c backtick) Hc). cbn [andb].
    change [backtick; backtick; backtick] with fence.
    rewrite IH. cbn [rev]. now rewrite <- app_assoc.
Qed.

(** X11. Removing the Markdown fence never raises: a reply that starts
    with a fence always has a piece after it, and a reply that does not
    is left as it is. *)
Theorem unfence_never_raises (content : pystr) :
  (exists inner, Synonyms.unfence content = Ok inner)
  /\ (startswith content fence = false -> Synonyms.unfence content = Ok content).
Proof.
  unfold Synonyms.unfence.
  destruct (startswith content fence) eqn:E.
  - split; [|discriminate].
    destruct (startswith_inv fence content E) as [rest ->].
    unfold split. rewrite split_go_fence_head.
    destruct (split_go fence 0 [] rest) as [|inner pieces] eqn:S.
    + now elim (split_go_nonempty fence rest 0 []).
    + cbn [nth_error]. eexists. reflexivity.
  - split; [now exists content | reflexivity].
Qed.

(** X12. For a reply wrapped in a fence, with or without the closing
    one, whose inner text holds no backquote, the text handed on is that
    inner text, less a leading [json]. *)
Theorem unfence_fenced (body rest : pystr) :
  Forall (fun c => c <> backtick) body ->
  Synonyms.unfence (fence ++ body ++ fence ++ rest)
  = Ok (if startswith body (py "json") then skipn 4 body else body)
  /\ Synonyms.unfence (fence ++ body)
     = Ok (if startswith body (py "json") then skipn 4 body else body).
Proof.
  intros Hb. unfold Synonyms.unfence, split. split.
  - rewrite startswith_app, split_go_fence_head.
    now rewrite (split_go_fenced body rest Hb).
  - rewrite startswith_app, split_go_fence_head.
    now rewrite (split_go_plain body Hb).
Qed.

Lemma lstrip_head (s : pystr) (c : N) (t : pystr) :
  lstrip s = c :: t -> isspace c = false.
Proof.
  induction s as [|x s IH]; cbn [lstrip]; [discriminate|].
  destruct (isspace x) eqn:E; [exact IH|].
  intros H; inversion H; now subst.
Qed.

Lemma lstrip_idempotent (s : pystr) : lstrip (lstrip s) = lstrip s.
Proof.
  destruct (lstrip s) as [|c t] eqn:E; [reflexivity|].
  cbn [lstrip]. now rewrite (lstrip_head s c t E).
Qed.

Lemma lstrip_prefix (s : pystr) :
  exists p : pystr, s = p ++ lstrip s /\ forallb isspace p = true.
Proof.
  induction s as [|x s [p [Hs Hp]]]; [now exists []|].
  cbn [lstrip]. destruct (isspace x) eqn:E.
  - exists (x :: p). cbn [app forallb]. rewrite E, Hp. split; [now f_equal|reflexivity].
  - now exists [].
Qed.

(** What [strip] returns has no whitespace left at its start. *)
Lemma lstrip_strip (s : pystr) : lstrip (strip s) = strip s.
Proof.
  unfold strip, rstrip.
  set (t := lstrip s).
  destruct (lstrip_prefix (rev t)) as [p [Hrev Hp]].
  set (u := lstrip (rev t)) in *.
  destruct (rev u) as [|c r] eqn:Eu; [reflexivity|].
  cbn [lstrip].
  assert (Ht : t = c :: (r ++ rev p)).
  { rewrite <- (rev_involutive t), Hrev, rev_app_distr, Eu. reflexivity. }
  now rewrite (lstrip_head s c (r ++ rev p) Ht).
Qed.

Lemma strip_idempotent (s : pystr) : strip (strip s) = strip s.
Proof.
  unfold strip at 1. rewrite lstrip_strip.
  unfold strip, rstrip. rewrite rev_involutive, lstrip_idempotent.
  reflexivity.
Qed.

Section SynonymsMore.

Variable lower : pystr -> pystr.
Variable json_loads : pystr -> result json.

Local Abbreviation handler := (Synonyms.handler lower json_loads).
Local Abbreviation detect_language := (Synonyms.detect_language lower).
Local Abbreviation resolved_lang := (Synonyms.resolved_lang lower).
Local Abbreviation general_step := Synonyms.general_step.
Local Abbreviation contextual_step := (Synonyms.contextual_step json_loads).

(** The handler looks at the event through its method and the three
    fields only. *)
Lemma handler_depends_on_fields (w : Synonyms.world) (ev1 ev2 : event) :
  Synonyms.method_of ev1 = Synonyms.method_of ev2 ->
  Synonyms.read_fields lower ev1 = Synonyms.read_fields lower ev2 ->
  handler w ev1 = handler w ev2.
Proof.
  intros Hm Hf. unfold Synonyms.handler, Synonyms.handler_post.
  now rewrite Hm, Hf.
Qed.

(** X13. Whitespace around the word does not matter: the request with
    the word already trimmed gets the same response and causes the same
    outbound requests. *)
Theorem surrounding_whitespace_is_irrelevant (w : Synonyms.world) (ev : event)
  (d : dict) (s : pystr) :
  Synonyms.method_of ev = JStr (py "POST") ->
  loads_body ev = Ok (JObj d) ->
  dict_get d (py "word") (JStr []) = JStr s ->
  handler w (post (JObj (dict_set d (py "word") (JStr (strip s))))) = handler w ev.
Proof.
  intros Hm Hb Hw.
  apply handler_depends_on_fields; [now rewrite Hm|].
  rewrite (synonyms_read_fields lower ev d s Hb Hw).
  rewrite (synonyms_read_fields lower
             (post (JObj (dict_set d (py "word") (JStr (strip s)))))
             (dict_set d (py "word") (JStr (strip s))) (strip s) eq_refl).
  - rewrite strip_idempotent. unfold dict_get.
    now rewrite !dict_lookup_set_other by reflexivity.
  - unfold dict_get. now rewrite dict_lookup_set_same.
Qed.

(** X14. The detected language depends on the two counts only: it is
    unchanged by a character that is neither Cyrillic nor Latin (a
    digit, a hyphen, a space), wherever it stands, and by reordering
    the characters. *)
Theorem detect_language_counts_only :
  (forall (a b : pystr) (c : N),
      Synonyms.is_cyrillic c = false -> Synonyms.is_latin lower c = false ->
      detect_language (a ++ c :: b) = detect_language (a ++ b))
  /\ (forall a b : pystr, Permutation a b -> detect_language a = detect_language b).
Proof.
  unfold Synonyms.detect_language. split.
  - intros a b c Hc Hl. cbv zeta.
    rewrite !count_app. cbn [count]. now rewrite Hc, Hl.
  - intros a b Hp. cbv zeta.
    now rewrite (count_permutation Synonyms.is_cyrillic a b Hp),
      (count_permutation (Synonyms.is_latin lower) a b Hp).
Qed.

(** X15. A word detected as Russian, sent without language and without
    context, is answered 200 with no synonym at all and causes no
    outbound request: the synonym API is asked for English only. *)
Theorem russian_word_sends_nothing (w : Synonyms.world) (ev : event) (d : dict)
  (s word : pystr) :
  Synonyms.method_of ev = JStr (py "POST") ->
  loads_body ev = Ok (JObj d) ->
  dict_get d (py "word") (JStr []) = JStr s ->
  lower (strip s) = word -> word <> [] ->
  truthy (dict_get d (py "lang") (JStr [])) = false ->
  truthy (dict_get d (py "context") (JStr [])) = false ->
  detect_language word = py "ru" ->
  handler w ev = (Synonyms.ok_response word (JStr (py "ru")) [], []).
Proof.
  intros Hm Hb Hw Hword Hne Hlang Hctx Hru.
  assert (Hlong : Synonyms.long_context (dict_get d (py "context") (JStr []))
                  = Ok false).
  { unfold Synonyms.long_context. now rewrite Hctx. }
  rewrite (synonyms_post_ok lower json_loads w ev d s word false
             Hm Hb Hw Hword Hne Hlong).
  unfold Synonyms.resolved_lang. rewrite Hlang, Hru. reflexivity.
Qed.

End SynonymsMore.

Lemma datamuse_trace_cases (w : Synonyms.world) (word : pystr) (lang : json) :
  snd (Synonyms.get_datamuse_synonyms w word lang) = []
  \/ snd (Synonyms.get_datamuse_synonyms w word lang) = [Synonyms.DatamuseGet word].
Proof.
  unfold Synonyms.get_datamuse_synonyms.
  destruct (eq_str lang (py "en")); [|now left].
  destruct (Synonyms.quote_ok word); [now right | now left].
Qed.

Lemma contextual_trace_cases (json_loads : pystr -> result json)
  (w : Synonyms.world) (word : pystr) (context lang : json) :
  snd (Synonyms.get_contextual_synonyms json_loads w word context lang) = []
  \/ exists shown,
       snd (Synonyms.get_contextual_synonyms json_loads w word context lang)
       = [Synonyms.OpenAIPost word shown (eq_str lang (py "ru"))].
Proof.
  unfold Synonyms.get_contextual_synonyms.
  destruct (Synonyms.OPENAI_API_KEY w) as [[|k key]|]; try now left.
  destruct (Synonyms.slice200 context) as [shown|e]; [|now left].
  right. now exists shown.
Qed.

Section SynonymsTraffic.

Variable lower : pystr -> pystr.
Variable json_loads : pystr -> result json.

Local Abbreviation handler := (Synonyms.handler lower json_loads).
Local Abbreviation resolved_lang := (Synonyms.resolved_lang lower).
Local Abbreviation general_step := Synonyms.general_step.

(** What the [try] block of the synonym handler can end in, with the
    requests it has issued by then. *)
Lemma synonyms_post_outcomes (w : Synonyms.world) (ev : event) :
  (exists e sent,
      Synonyms.handler_post lower json_loads w ev = (Raise e, sent)
      /\ one_each sent)
  \/ Synonyms.handler_post lower json_loads w ev
     = (Ok (error_response 400 "Word is required"), [])
  \/ (exists word lang synonyms sent,
        Synonyms.handler_post lower json_loads w ev
        = (Ok (Synonyms.ok_response word lang synonyms), sent)
        /\ one_each sent).
Proof.
  unfold Synonyms.handler_post.
  destruct (Synonyms.read_fields lower ev) as [[[word context] lang0]|e].
  2: { left. exists e, []. split; [reflexivity|].
       exists [], []. repeat split; now left. }
  destruct word as [|c word']; [right; left; reflexivity|].
  set (word := c :: word').
  set (lang := if truthy lang0 then lang0
               else JStr (Synonyms.detect_language lower word)).
  assert (Hgen : exists general sent1,
             (if eq_str lang (py "en")
              then let '(datamuse_results, sent) :=
                     Synonyms.get_datamuse_synonyms w word lang in
                   (map Synonyms.datamuse_entry (firstn 5 datamuse_results), sent)
              else ([], []))
             = (general, sent1)
             /\ (sent1 = [] \/ sent1 = [Synonyms.DatamuseGet word])).
  { destruct (eq_str lang (py "en")).
    - pose proof (datamuse_trace_cases w word lang) as Ht.
      destruct (Synonyms.get_datamuse_synonyms w word lang) as [res sent].
      eexists _, sent. split; [reflexivity | exact Ht].
    - exists [], []. split; [reflexivity | now left]. }
  destruct Hgen as [general [sent1 [-> Hsent1]]].
  assert (Hd : sent1 = [] \/ exists word0, sent1 = [Synonyms.DatamuseGet word0]).
  { destruct Hsent1 as [-> | ->]; [now left | right; now exists word]. }
  destruct (Synonyms.long_context context) as [[|]|e].
  - pose proof (contextual_trace_cases json_loads w word context lang) as Ht.
    destruct (Synonyms.get_contextual_synonyms json_loads w word context lang)
      as [ctxl sent2].
    cbn [snd] in Ht.
    right; right. eexists word, lang, _, (sent1 ++ sent2).
    split; [reflexivity|].
    exists sent1, sent2. split; [reflexivity|]. split; [exact Hd|].
    destruct Ht as [-> | [shown ->]]; [now left | right; eauto].
  - right; right. eexists word, lang, _, sent1. split; [reflexivity|].
    exists sent1, []. rewrite app_nil_r. repeat split; auto.
  - left. exists e, sent1. split; [reflexivity|].
    exists sent1, []. rewrite app_nil_r. repeat split; auto.
Qed.

(** X16. Whatever the request, the synonym handler issues at most one
    request to the synonym API and at most one to the language model,
    in that order. *)
Theorem synonyms_requests_one_each (w : Synonyms.world) (ev : event) :
  one_each (snd (handler w ev)).
Proof.
  unfold Synonyms.handler.
  assert (Hnil : one_each []).
  { exists [], []. repeat split; now left. }
  destruct (eq_str (Synonyms.method_of ev) (py "OPTIONS")); [exact Hnil|].
  destruct (eq_str (Synonyms.method_of ev) (py "POST")); [|exact Hnil].
  destruct (synonyms_post_outcomes w ev)
    as [[e [sent [-> H]]] | [-> | [word [lang [syns [sent [-> H]]]]]]];
    cbn [snd]; assumption.
Qed.

(** X17. A request the synonym handler rejects with 400 or 405 has
    caused no outbound request. *)
Theorem synonyms_rejections_send_nothing (w : Synonyms.world) (ev : event) :
  statusCode (fst (handler w ev)) = 400%Z \/ statusCode (fst (handler w ev)) = 405%Z ->
  snd (handler w ev) = [].
Proof.
  unfold Synonyms.handler.
  destruct (eq_str (Synonyms.method_of ev) (py "OPTIONS")); [reflexivity|].
  destruct (eq_str (Synonyms.method_of ev) (py "POST")); [|reflexivity].
  destruct (synonyms_post_outcomes w ev)
    as [[e [sent [-> H]]] | [-> | [word [lang [syns [sent [-> H]]]]]]];
    cbn [fst snd try_except]; intros [Hs | Hs]; try discriminate Hs; reflexivity.
Qed.

(** X18. Every response of the synonym handler has status 200, 400, 405
    or 500, is not marked base64-encoded, and carries the header
    [Access-Control-Allow-Origin: *]. *)
Theorem synonyms_response_shape (w : Synonyms.world) (ev : event) :
  (statusCode (fst (handler w ev)) = 200%Z \/ statusCode (fst (handler w ev)) = 400%Z
   \/ statusCode (fst (handler w ev)) = 405%Z \/ statusCode (fst (handler w ev)) = 500%Z)
  /\ isBase64Encoded (fst (handler w ev)) = false
  /\ In ("Access-Control-Allow-Origin", "*")%string (headers (fst (handler w ev))).
Proof.
  unfold Synonyms.handler.
  destruct (eq_str (Synonyms.method_of ev) (py "OPTIONS")).
  { cbn. auto. }
  destruct (eq_str (Synonyms.method_of ev) (py "POST")).
  2: { cbn. auto 6. }
  destruct (synonyms_post_outcomes w ev)
    as [[e [sent [-> H]]] | [-> | [word [lang [syns [sent [-> H]]]]]]];
    cbn; auto 6.
Qed.

(** X19. A POST to the synonym handler whose body cannot be parsed or is
    not a JSON object, or whose word is not a string (a number, null), is
    answered with 500 carrying the exception, and nothing is sent out. *)
Theorem synonyms_word_must_be_string (w : Synonyms.world) (ev : event) :
  Synonyms.method_of ev = JStr (py "POST") ->
  (forall e, loads_body ev = Raise e ->
             handler w ev = (json_response 500 (BodyError e), []))
  /\ (forall v, loads_body ev = Ok v -> (forall d, v <> JObj d) ->
                handler w ev = (json_response 500 (BodyError AttributeError), []))
  /\ (forall d, loads_body ev = Ok (JObj d) ->
                (forall s, dict_get d (py "word") (JStr []) <> JStr s) ->
                handler w ev = (json_response 500 (BodyError AttributeError), [])).
Proof.
  intros Hm.
  unfold Synonyms.handler, Synonyms.handler_post, Synonyms.read_fields,
    Synonyms.normalize.
  rewrite Hm. split; [|split].
  - intros e ->. reflexivity.
  - intros v -> Hv. destruct v; try reflexivity. now elim (Hv d).
  - intros d -> Hs. cbn [bind get].
    destruct (dict_get d (py "word") (JStr [])); try reflexivity.
    now elim (Hs s).
Qed.

End SynonymsTraffic.

Lemma dict_set_keys (d : dict) (k : pystr) (v : json) :
  dict_mem d k = true -> map fst (dict_set d k v) = map fst d.
Proof.
  unfold dict_mem.
  induction d as [|[k' v'] d IH]; cbn [dict_lookup dict_set]; [discriminate|].
  destruct (pystr_eqb k' k); [reflexivity|].
  intros H. cbn [map fst]. now rewrite (IH H).
Qed.

Lemma dict_set_absent (d : dict) (k : pystr) (v : json) :
  dict_mem d k = false -> dict_set d k v = d ++ [(k, v)].
Proof.
  unfold dict_mem.
  induction d as [|[k' v'] d IH]; cbn [dict_lookup dict_set]; [reflexivity|].
  destruct (pystr_eqb k' k); [discriminate|].
  intros H. cbn [app]. now rewrite (IH H).
Qed.

(** X20. Tagging a record of the model's list touches its ['source']
    only: every other key keeps its value, a ['source'] already there is
    overwritten where it stands, and one that is missing is added at the
    end. *)
Theorem tagging_keeps_other_fields (d : dict) :
  dict_mem d (py "word") = true ->
  exists d' : dict,
    Synonyms.contextual_entries [JObj d] = [JObj d']
    /\ dict_lookup d' (py "source") = Some (JStr (py "contextual"))
    /\ (forall k, k <> py "source" -> dict_lookup d' k = dict_lookup d k)
    /\ (dict_mem d (py "source") = true -> map fst d' = map fst d)
    /\ (dict_mem d (py "source") = false ->
        d' = d ++ [(py "source", JStr (py "contextual"))]).
Proof.
  intros Hw. exists (dict_set d (py "source") (JStr (py "contextual"))).
  cbn [Synonyms.contextual_entries]. rewrite Hw.
  split; [reflexivity|]. split; [apply dict_lookup_set_same|].
  split; [|split].
  - intros k Hk. apply dict_lookup_set_other, pystr_eqb_neq. congruence.
  - apply dict_set_keys.
  - apply dict_set_absent.
Qed.

(** X21. A request that names no method is handled as a POST by the
    export handler and rejected with 405, nothing being sent out, by the
    synonym handler: the two defaults differ. *)
Theorem default_methods_differ (lower : pystr -> pystr) (str_of : json -> pystr)
  (json_loads : pystr -> result json) (we : Exporter.world) (ws : Synonyms.world)
  (ev : event) :
  httpMethod ev = None ->
  Exporter.handler lower str_of we ev
  = Exporter.handler lower str_of we (mkEvent (Some (JStr (py "POST"))) (ev_body ev))
  /\ Synonyms.handler lower json_loads ws ev
     = (error_response 405 "Method not allowed", []).
Proof.
  intros Hm.
  unfold Exporter.handler, Exporter.handler_post, Exporter.method_of,
    Synonyms.handler, Synonyms.method_of, loads_body.
  rewrite Hm. split; reflexivity.
Qed.

Section SynonymsContext.

Variable lower : pystr -> pystr.
Variable json_loads : pystr -> result json.

Local Abbreviation handler := (Synonyms.handler lower json_loads).
Local Abbreviation resolved_lang := (Synonyms.resolved_lang lower).
Local Abbreviation general_step := Synonyms.general_step.

(** X22. A context that is true but has no length (a number, [true]) is
    answered with 500 carrying the exception of [len], although the word
    is fine; the request to the synonym API, if the language is English,
    has gone out by then. *)
Theorem unsized_context_is_500 (w : Synonyms.world) (ev : event) (d : dict)
  (s word : pystr) (e : exn) :
  Synonyms.method_of ev = JStr (py "POST") ->
  loads_body ev = Ok (JObj d) ->
  dict_get d (py "word") (JStr []) = JStr s ->
  lower (strip s) = word -> word <> [] ->
  truthy (dict_get d (py "context") (JStr [])) = true ->
  len (dict_get d (py "context") (JStr [])) = Raise e ->
  handler w ev =
  (json_response 500 (BodyError e),
   snd (general_step w word
          (resolved_lang word (dict_get d (py "lang") (JStr []))))).
Proof.
  intros Hm Hb Hw Hword Hne Ht Hlen.
  unfold Synonyms.handler, Synonyms.handler_post.
  rewrite Hm. cbn [eq_str].
  change (pystr_eqb (py "POST") (py "OPTIONS")) with false.
  change (pystr_eqb (py "POST") (py "POST")) with true. cbv iota.
  rewrite (synonyms_read_fields lower ev d s Hb Hw), Hword.
  destruct word as [|c word']; [congruence|].
  fold (Synonyms.resolved_lang lower (c :: word') (dict_get d (py "lang") (JStr []))).
  set (lang := resolved_lang (c :: word') (dict_get d (py "lang") (JStr []))).
  unfold Synonyms.long_context. rewrite Ht, Hlen. cbn [bind].
  unfold Synonyms.general_step.
  destruct (eq_str lang (py "en"));
    [destruct (Synonyms.get_datamuse_synonyms w (c :: word') lang) as [hits sent1]|];
    reflexivity.
Qed.

(** X23. With the credential set, a context longer than ten characters
    (or, for a list, ten elements) goes to the language model cut to its
    first 200, together with the trimmed, lowercased word; that request
    is the last one issued. *)
Theorem model_sees_first_200 (w : Synonyms.world) (ev : event) (d : dict)
  (s word : pystr) :
  Synonyms.method_of ev = JStr (py "POST") ->
  loads_body ev = Ok (JObj d) ->
  dict_get d (py "word") (JStr []) = JStr s ->
  lower (strip s) = word -> word <> [] ->
  has_credential w = true ->
  (forall cs : pystr,
      dict_get d (py "context") (JStr []) = JStr cs ->
      (10 < List.length cs)%nat ->
      snd (handler w ev) =
      snd (general_step w word (resolved_lang word (dict_get d (py "lang") (JStr []))))
      ++ [Synonyms.OpenAIPost word (JStr (firstn 200 cs))
            (eq_str (resolved_lang word (dict_get d (py "lang") (JStr []))) (py "ru"))])
  /\ (forall l : list json,
        dict_get d (py "context") (JStr []) = JArr l ->
        (10 < List.length l)%nat ->
        snd (handler w ev) =
        snd (general_step w word (resolved_lang word (dict_get d (py "lang") (JStr []))))
        ++ [Synonyms.OpenAIPost word (JArr (firstn 200 l))
              (eq_str (resolved_lang word (dict_get d (py "lang") (JStr []))) (py "ru"))]).
Proof.
  intros Hm Hb Hw Hword Hne Hkey.
  unfold has_credential in Hkey.
  split.
  - intros cs Hc Hlen.
    assert (Hlong : Synonyms.long_context (dict_get d (py "context") (JStr []))
                    = Ok true).
    { rewrite Hc, long_context_str. now rewrite (proj2 (Nat.ltb_lt _ _) Hlen). }
    rewrite (synonyms_post_ok lower json_loads w ev d s word true
               Hm Hb Hw Hword Hne Hlong).
    cbn [snd]. rewrite Hc.
    unfold Synonyms.contextual_step, Synonyms.get_contextual_synonyms.
    destruct (Synonyms.OPENAI_API_KEY w) as [[|k key]|]; try discriminate Hkey.
    reflexivity.
  - intros l Hc Hlen.
    assert (Hlong : Synonyms.long_context (dict_get d (py "context") (JStr []))
                    = Ok true).
    { rewrite Hc. unfold Synonyms.long_context.
      destruct l as [|v l]; [cbn in Hlen; lia|].
      cbn [truthy len bind]. now rewrite (proj2 (Nat.ltb_lt _ _) Hlen). }
    rewrite (synonyms_post_ok lower json_loads w ev d s word true
               Hm Hb Hw Hword Hne Hlong).
    cbn [snd]. rewrite Hc.
    unfold Synonyms.contextual_step, Synonyms.get_contextual_synonyms.
    destruct (Synonyms.OPENAI_API_KEY w) as [[|k key]|]; try discriminate Hkey.
    reflexivity.
Qed.

(** X24. A context that is a JSON object never reaches the language
    model, however many keys it has and whether or not the credential is
    set: the answer is the one of the datamuse step alone. *)
Theorem context_object_is_never_sent (w : Synonyms.world) (ev : event) (d : dict)
  (s word : pystr) (kvs : dict) :
  Synonyms.method_of ev = JStr (py "POST") ->
  loads_body ev = Ok (JObj d) ->
  dict_get d (py "word") (JStr []) = JStr s ->
  lower (strip s) = word -> word <> [] ->
  dict_get d (py "context") (JStr []) = JObj kvs ->
  handler w ev =
  (Synonyms.ok_response word
     (resolved_lang word (dict_get d (py "lang") (JStr [])))
     (fst (general_step w word
             (resolved_lang word (dict_get d (py "lang") (JStr []))))),
   snd (general_step w word
          (resolved_lang word (dict_get d (py "lang") (JStr []))))).
Proof.
  intros Hm Hb Hw Hword Hne Hc.
  assert (Hlong : exists long,
             Synonyms.long_context (dict_get d (py "context") (JStr [])) = Ok long).
  { rewrite Hc. unfold Synonyms.long_context.
    destruct kvs; cbn [truthy len bind]; eauto. }
  destruct Hlong as [long Hlong].
  rewrite (synonyms_post_ok lower json_loads w ev d s word long
             Hm Hb Hw Hword Hne Hlong).
  rewrite Hc.
  assert (Hnone : Synonyms.contextual_step json_loads w word (JObj kvs)
                    (resolved_lang word (dict_get d (py "lang") (JStr []))) long
                  = ([], [])).
  { unfold Synonyms.contextual_step, Synonyms.get_contextual_synonyms.
    destruct long; [|reflexivity].
    destruct (Synonyms.OPENAI_API_KEY w) as [[|k key]|]; reflexivity. }
  rewrite Hnone. cbn [fst snd]. now rewrite !app_nil_r.
Qed.

End SynonymsContext.

(** * Reading the fallback file back *)

Lemma to_N_byte_of_N (n : N) : (n < 256)%N -> Byte.to_N (byte_of_N n) = n.
Proof.
  intros H. unfold byte_of_N.
  destruct (Byte.of_N n) as [b|] eqn:E.
  - now apply Byte.to_of_N.
  - apply Byte.of_N_None_iff in E. lia.
Qed.

Lemma decode_utf8_char (c : N) (bc : bytes) (rest : bytes) :
  utf8_char c = Some bc ->
  decode_utf8 (bc ++ rest) = option_map (cons c) (decode_utf8 rest).
Proof.
  unfold utf8_char.
  destruct (N.ltb_spec c 128).
  { set (x1 := byte_of_N c).
    intros [= <-]. subst x1. cbn [app decode_utf8]. cbv zeta.
    rewrite to_N_byte_of_N by lia.
    now rewrite (proj2 (N.ltb_lt c 128)). }
  destruct (N.ltb_spec c 2048).
  { set (x1 := byte_of_N (192 + c / 64)).
    set (x2 := byte_of_N (128 + c mod 64)).
    intros [= <-]. subst x1 x2. cbn [app decode_utf8]. cbv zeta.
    rewrite !to_N_byte_of_N by euclid.
    rewrite (proj2 (N.ltb_ge _ 128)), (proj2 (N.ltb_ge _ 192)),
      (proj2 (N.ltb_lt _ 224)) by euclid.
    do 2 f_equal. euclid. }
  destruct (N.ltb_spec c 65536).
  { destruct ((55296 <=? c) && (c <=? 57343))%N; [discriminate|].
    set (x1 := byte_of_N (224 + c / 4096)).
    set (x2 := byte_of_N (128 + (c / 64) mod 64)).
    set (x3 := byte_of_N (128 + c mod 64)).
    intros [= <-]. subst x1 x2 x3. cbn [app decode_utf8]. cbv zeta.
    rewrite !to_N_byte_of_N by euclid.
    rewrite (proj2 (N.ltb_ge _ 128)), (proj2 (N.ltb_ge _ 192)),
      (proj2 (N.ltb_ge _ 224)), (proj2 (N.ltb_lt _ 240)) by euclid.
    do 2 f_equal. euclid. }
  destruct (N.ltb_spec c 1114112); [|discriminate].
  set (x1 := byte_of_N (240 + c / 262144)).
  set (x2 := byte_of_N (128 + (c / 4096) mod 64)).
  set (x3 := byte_of_N (128 + (c / 64) mod 64)).
  set (x4 := byte_of_N (128 + c mod 64)).
  intros [= <-]. subst x1 x2 x3 x4. cbn [app decode_utf8]. cbv zeta.
  rewrite !to_N_byte_of_N by euclid.
  rewrite (proj2 (N.ltb_ge _ 128)), (proj2 (N.ltb_ge _ 192)),
    (proj2 (N.ltb_ge _ 224)), (proj2 (N.ltb_ge _ 240)) by euclid.
  do 2 f_equal. euclid.
Qed.

Lemma decode_encode_utf8 (s : pystr) (bs : bytes) :
  encode_utf8 s = Ok bs -> decode_utf8 bs = Some s.
Proof.
  revert bs. induction s as [|c s IH]; intros bs; cbn [encode_utf8].
  - intros E; inversion E. reflexivity.
  - destruct (utf8_char c) as [bc|] eqn:Ec; [|discriminate].
    destruct (encode_utf8 s) as [rest|e]; [|discriminate].
    cbn [bind]. intros E; inversion E; subst bs.
    rewrite (decode_utf8_char c bc rest Ec), (IH rest eq_refl).
    reflexivity.
Qed.

(** X25. Whenever the fallback encoder returns a file for a list of
    replacement records, reading that file as UTF-8 gives back the flat
    text: title, timestamp, body and the replacement lines, character
    for character. *)
Theorem fallback_file_reads_back (str_of : json -> pystr) (w : Exporter.world)
  (text : json) (reps : list dict) (file_bytes : bytes) :
  Exporter.create_simple_pdf_fallback str_of w text (JArr (map JObj reps))
  = Ok file_bytes ->
  decode_utf8 file_bytes
  = Some (Exporter.spec_flat_text (Exporter.generated_at w)
            (Exporter.format_value str_of text)
            (map (Exporter.spec_replacement_text str_of) reps)).
Proof.
  rewrite fallback_on_records. apply decode_encode_utf8.
Qed.

(** * Sample runs of the further properties *)

Lemma export_body_must_be_object_list :
  Exporter.handler ascii_lower plain_str_of bare_machine list_body
  = json_response 500 (BodyError AttributeError).
Proof.
  apply (proj2 (export_body_must_be_object ascii_lower plain_str_of bare_machine
                  list_body eq_refl) (JArr [JInt 1]) eq_refl).
  discriminate.
Defined.

Lemma renderer_errors_propagate_docx :
  Exporter.handler ascii_lower plain_str_of broken_renderers hello_docx
  = json_response 500 (BodyError (OtherError (py "template missing"))).
Proof.
  assert (Hne : OtherError (py "template missing") <> ImportError) by discriminate.
  exact (proj2 (proj2 (renderer_errors_propagate ascii_lower plain_str_of
                         broken_renderers hello_docx
                         [(py "text", JStr (py "hello")); (py "format", JStr (py "docx"))]
                         (py "docx") (OtherError (py "template missing"))
                         eq_refl eq_refl eq_refl eq_refl Hne)
                 eq_refl eq_refl)).
Defined.

Lemma fallback_fails_on_surrogates_only_lone :
  Exporter.create_simple_pdf_fallback plain_str_of bare_machine
    (JStr [55296%N]) (JArr [])
  = Raise UnicodeEncodeError.
Proof.
  apply (proj2 (fallback_fails_on_surrogates_only plain_str_of bare_machine
                  (JStr [55296%N]) (JArr []) [] eq_refl)).
  vm_compute. reflexivity.
Defined.

Lemma fallback_history_is_appended_big :
  exists head tail : bytes,
    Exporter.create_simple_pdf_fallback plain_str_of bare_machine
      (JStr (py "hi")) (JArr []) = Ok head
    /\ (List.length head < List.length (head ++ tail))%nat.
Proof.
  assert (Hne : [big_to_large] <> []) by discriminate.
  destruct (Exporter.create_simple_pdf_fallback plain_str_of bare_machine
              (JStr (py "hi")) (JArr (map JObj [big_to_large])))
    as [file_bytes|e] eqn:E.
  - destruct (fallback_history_is_appended plain_str_of bare_machine
                (JStr (py "hi")) [big_to_large] file_bytes Hne E)
      as [head [tail [Hh [Hf Hl]]]].
    exists head, tail. split; [exact Hh|]. now rewrite <- Hf.
  - vm_compute in E. discriminate E.
Defined.

Lemma fallback_needs_replacement_records_string :
  Exporter.create_simple_pdf_fallback plain_str_of bare_machine
    (JStr (py "hi")) (JArr [JStr (py "big")])
  = Raise AttributeError.
Proof.
  apply (fallback_needs_replacement_records plain_str_of bare_machine
           (JStr (py "hi")) [JStr (py "big")]).
  constructor. discriminate.
Defined.

Lemma export_filename_matches_type_docx :
  field (Exporter.handler ascii_lower plain_str_of bare_machine hello_docx)
    (py "filename") = Some (JStr (py "synapse-export-20240102-030405.docx")).
Proof.
  assert (H200 : statusCode
            (Exporter.handler ascii_lower plain_str_of bare_machine hello_docx)
          = 200%Z) by (vm_compute; reflexivity).
  destruct (export_filename_matches_type ascii_lower plain_str_of bare_machine
              hello_docx H200) as [H | [[H _] | [H _]]].
  - vm_compute in H. discriminate H.
  - vm_compute in H. discriminate H.
  - vm_compute. reflexivity.
Defined.

Lemma b64encode_injective_M : [x4d] = [x4d].
Proof. apply (b64encode_injective [x4d] [x4d]). reflexivity. Defined.

Lemma datamuse_all_or_nothing_online :
  Synonyms.get_datamuse_synonyms thesaurus_online (py "happy") (JStr (py "en"))
  = ([Synonyms.mkHit (JStr (py "glad")) (JInt 90);
      Synonyms.mkHit (JStr (py "content")) (JInt 0)],
     [Synonyms.DatamuseGet (py "happy")]).
Proof.
  apply (proj1 (datamuse_all_or_nothing thesaurus_online (py "happy")
                  [JObj [(py "word", JStr (py "glad")); (py "score", JInt 90)];
                   JObj [(py "word", JStr (py "content"))]]
                  eq_refl eq_refl)
           [[(py "word", JStr (py "glad")); (py "score", JInt 90)];
            [(py "word", JStr (py "content"))]]
           eq_refl).
  repeat constructor.
Defined.

Lemma unfence_fenced_sample :
  Synonyms.unfence (fence ++ py "json LIST " ++ fence ++ []) = Ok (py " LIST ").
Proof.
  assert (Hb : Forall (fun c => c <> backtick) (py "json LIST ")).
  { vm_compute. repeat constructor; discriminate. }
  exact (proj1 (unfence_fenced (py "json LIST ") [] Hb)).
Defined.

Lemma surrounding_whitespace_is_irrelevant_happy :
  Synonyms.handler ascii_lower sample_loads thesaurus_online
    (post (JObj [(py "word", JStr (py "Happy")); (py "lang", JStr (py "en"))]))
  = Synonyms.handler ascii_lower sample_loads thesaurus_online happy_en.
Proof.
  apply (surrounding_whitespace_is_irrelevant ascii_lower sample_loads
           thesaurus_online happy_en
           [(py "word", JStr (py " Happy")); (py "lang", JStr (py "en"))]
           (py " Happy") eq_refl eq_refl eq_refl).
Defined.

Lemma russian_word_sends_nothing_radostny :
  Synonyms.handler ascii_lower sample_loads model_online radostny_request
  = (Synonyms.ok_response radostny (JStr (py "ru")) [], []).
Proof.
  assert (Hne : radostny <> []) by discriminate.
  apply (russian_word_sends_nothing ascii_lower sample_loads model_online
           radostny_request [(py "word", JStr radostny)] radostny radostny
           eq_refl eq_refl eq_refl eq_refl Hne eq_refl eq_refl eq_refl).
Defined.

Lemma synonyms_rejections_send_nothing_blank :
  snd (Synonyms.handler ascii_lower sample_loads thesaurus_online blank_word) = [].
Proof.
  apply (synonyms_rejections_send_nothing ascii_lower sample_loads
           thesaurus_online blank_word).
  left. vm_compute. reflexivity.
Defined.

Lemma synonyms_word_must_be_string_seven :
  Synonyms.handler ascii_lower sample_loads thesaurus_online numeric_word
  = (json_response 500 (BodyError AttributeError), []).
Proof.
  apply (proj2 (proj2 (synonyms_word_must_be_string ascii_lower sample_loads
                         thesaurus_online numeric_word eq_refl))
           [(py "word", JInt 7)] eq_refl).
  intros s. vm_compute. discriminate.
Defined.

Lemma tagging_keeps_other_fields_joyful :
  exists d' : dict,
    Synonyms.contextual_entries
      [JObj [(py "word", JStr (py "joyful")); (py "source", JStr (py "model"))]]
    = [JObj d']
    /\ dict_lookup d' (py "word") = Some (JStr (py "joyful")).
Proof.
  destruct (tagging_keeps_other_fields
              [(py "word", JStr (py "joyful")); (py "source", JStr (py "model"))]
              eq_refl) as [d' [H1 [_ [H3 _]]]].
  exists d'. split; [exact H1|].
  rewrite H3; [reflexivity | vm_compute; discriminate].
Defined.

Lemma default_methods_differ_bare :
  Synonyms.handler ascii_lower sample_loads offline bare_event
  = (error_response 405 "Method not allowed", []).
Proof.
  exact (proj2 (default_methods_differ ascii_lower plain_str_of sample_loads
                  bare_machine offline bare_event eq_refl)).
Defined.

Lemma unsized_context_is_500_five :
  Synonyms.handler ascii_lower sample_loads thesaurus_online happy_numeric_context
  = (json_response 500 (BodyError TypeError), [Synonyms.DatamuseGet (py "happy")]).
Proof.
  assert (Hne : py "happy" <> []) by (vm_compute; discriminate).
  apply (unsized_context_is_500 ascii_lower sample_loads thesaurus_online
           happy_numeric_context
           [(py "word", JStr (py "happy")); (py "context", JInt 5)]
           (py "happy") (py "happy") TypeError
           eq_refl eq_refl eq_refl eq_refl Hne eq_refl eq_refl).
Defined.

Lemma model_sees_first_200_happy :
  snd (Synonyms.handler ascii_lower sample_loads model_online happy_in_context)
  = [Synonyms.DatamuseGet (py "happy");
     Synonyms.OpenAIPost (py "happy") (JStr (py "a happy day at the sea")) false].
Proof.
  assert (Hne : py "happy" <> []) by (vm_compute; discriminate).
  apply (proj1 (model_sees_first_200 ascii_lower sample_loads model_online
                  happy_in_context
                  [(py "word", JStr (py "happy"));
                   (py "context", JStr (py "a happy day at the sea"))]
                  (py "happy") (py "happy")
                  eq_refl eq_refl eq_refl eq_refl Hne eq_refl)
           (py "a happy day at the sea") eq_refl).
  vm_compute. lia.
Defined.

Lemma context_object_is_never_sent_topic :
  Synonyms.handler ascii_lower sample_loads model_online happy_object_context
  = (Synonyms.ok_response (py "happy") (JStr (py "en")) [],
     [Synonyms.DatamuseGet (py "happy")]).
Proof.
  assert (Hne : py "happy" <> []) by (vm_compute; discriminate).
  apply (context_object_is_never_sent ascii_lower sample_loads model_online
           happy_object_context
           [(py "word", JStr (py "happy"));
            (py "context", JObj [(py "topic", JStr (py "sea"))])]
           (py "happy") (py "happy") [(py "topic", JStr (py "sea"))]
           eq_refl eq_refl eq_refl eq_refl Hne eq_refl).
Defined.

Lemma fallback_file_reads_back_hi :
  exists file_bytes : bytes,
    Exporter.create_simple_pdf_fallback plain_str_of bare_machine
      (JStr (py "hi")) (JArr (map JObj [big_to_large])) = Ok file_bytes
    /\ decode_utf8 file_bytes
       = Some (Exporter.spec_flat_text (py "2024-01-02 03:04:05") (py "hi")
                 [Exporter.spec_replacement_text plain_str_of big_to_large]).
Proof.
  destruct (Exporter.create_simple_pdf_fallback plain_str_of bare_machine
              (JStr (py "hi")) (JArr (map JObj [big_to_large])))
    as [file_bytes|e] eqn:E.
  - exists file_bytes. split; [reflexivity|].
    exact (fallback_file_reads_back plain_str_of bare_machine (JStr (py "hi"))
             [big_to_large] file_bytes E).
  - vm_compute in E. discriminate E.
Defined.
